(** * audic-musicgen: the generation request handlers

    A shallow embedding of [modal_app.py] (sound effects) and
    [musicgen_app.py] (music, music with melody, HTTP endpoint).

    The handlers are straight-line Python: a sequence of calls into
    audiocraft, the file system and boto3, each guarded by [try]/[except].
    They are embedded in a state-and-exception monad.  The outcome of every
    external call is read from a [world] (the stub of the collaborators),
    every call that is made is recorded in the state, and a Python
    exception is a value of type [exn].

    Conventions of the embedding:
    - a Python value is a [value] ([None], [bool], [int], [str]); floats
      and containers as arguments are outside the model;
    - a [str] is a [string], one character per code point below 256;
    - [exn] stands for an instance of a subclass of [Exception], the only
      ones [except Exception] catches ([KeyboardInterrupt] and [SystemExit]
      are outside the model);
    - audio samples are float32 in the source and rationals here: the
      rounding of the channel average is not modelled;
    - [print] appends to the captured standard output and does not fail. *)

From Stdlib Require Import ZArith QArith String Ascii List Lia Sorted.
From stdpp Require Import base gmap strings list pretty.

Close Scope Q_scope.
Local Open Scope string_scope.

(** ** Python values and exceptions *)

Inductive value : Type :=
| VNone
| VBool (b : bool)
| VInt (n : Z)
| VStr (s : string).

Record exn : Type := Exception { exn_class : string; exn_msg : string }.

(** [str(e)] *)
Definition str_exn (e : exn) : string := exn_msg e.

Definition TypeError (msg : string) : exn := Exception "TypeError" msg.
Definition AttributeError (msg : string) : exn := Exception "AttributeError" msg.
Definition IndexError (msg : string) : exn := Exception "IndexError" msg.
Definition FileNotFoundError (msg : string) : exn :=
  Exception "FileNotFoundError" msg.

Definition dict : Type := gmap string value.

(** [type(v).__name__] *)
Definition type_name (v : value) : string :=
  match v with
  | VNone => "NoneType"
  | VBool _ => "bool"
  | VInt _ => "int"
  | VStr _ => "str"
  end.

(** [bool(v)] *)
Definition truthy (v : value) : bool :=
  match v with
  | VNone => false
  | VBool b => b
  | VInt n => negb (n =? 0)%Z
  | VStr s => negb (String.eqb s "")
  end.

(** [str(v)], as an f-string formats a value *)
Definition str_value (v : value) : string :=
  match v with
  | VNone => "None"
  | VBool true => "True"
  | VBool false => "False"
  | VInt n => pretty n
  | VStr s => s
  end.

(** [v < n] and [v > n] against an [int] literal *)
Definition py_lt (v : value) (n : Z) : exn + bool :=
  match v with
  | VInt d => inr (d <? n)%Z
  | VBool b => inr (Z.b2z b <? n)%Z
  | _ => inl (TypeError ("'<' not supported between instances of '"
                          +:+ type_name v +:+ "' and 'int'"))
  end.

Definition py_gt (v : value) (n : Z) : exn + bool :=
  match v with
  | VInt d => inr (d >? n)%Z
  | VBool b => inr (Z.b2z b >? n)%Z
  | _ => inl (TypeError ("'>' not supported between instances of '"
                          +:+ type_name v +:+ "' and 'int'"))
  end.

(** ** [str.strip] *)

(** [str.isspace] on one character, for the code points below 256. *)
Definition isspace (c : ascii) : bool :=
  let n := nat_of_ascii c in
  ((9 <=? n)%nat && (n <=? 13)%nat) || ((28 <=? n)%nat && (n <=? 32)%nat)
  || (n =? 133)%nat || (n =? 160)%nat.

Fixpoint lstrip (s : string) : string :=
  match s with
  | EmptyString => EmptyString
  | String c s' => if isspace c then lstrip s' else s
  end.

Fixpoint rstrip (s : string) : string :=
  match s with
  | EmptyString => EmptyString
  | String c s' =>
      match rstrip s' with
      | EmptyString => if isspace c then EmptyString else String c EmptyString
      | r => String c r
      end
  end.

Definition strip (s : string) : string := rstrip (lstrip s).

(** [s] consists of white space only (the empty string included) *)
Fixpoint blank (s : string) : bool :=
  match s with
  | EmptyString => true
  | String c s' => isspace c && blank s'
  end.

(** [v.strip()] *)
Definition py_strip (v : value) : exn + value :=
  match v with
  | VStr s => inr (VStr (strip s))
  | _ => inl (AttributeError ("'" +:+ type_name v
                               +:+ "' object has no attribute 'strip'"))
  end.

(** [v[:100]] and [len(v)], which the handlers use to log the prompt *)
Definition py_slice100 (v : value) : exn + string :=
  match v with
  | VStr s => inr (substring 0 100 s)
  | _ => inl (TypeError ("'" +:+ type_name v
                          +:+ "' object is not subscriptable"))
  end.

Definition py_len (v : value) : exn + Z :=
  match v with
  | VStr s => inr (Z.of_nat (String.length s))
  | _ => inl (TypeError ("object of type '" +:+ type_name v
                          +:+ "' has no len()"))
  end.

(** [", ".join(l)] *)
Fixpoint join (sep : string) (l : list string) : string :=
  match l with
  | [] => ""
  | [x] => x
  | x :: l' => x +:+ sep +:+ join sep l'
  end.

(** ** Audio arrays *)

(** What [wav[0]] is: a one-dimensional array of samples, or a
    two-dimensional one, a row of samples per channel. *)
Inductive array : Type :=
| Arr1 (samples : list Q)
| Arr2 (channels : list (list Q)).

Definition ndim (a : array) : nat :=
  match a with
  | Arr1 _ => 1
  | Arr2 _ => 2
  end.

Fixpoint add_rows (xs ys : list Q) : list Q :=
  match xs, ys with
  | x :: xs', y :: ys' => Qplus x y :: add_rows xs' ys'
  | _, _ => []
  end.

(** [a.mean(axis=0)] of a two-dimensional array: the average over the
    channels, sample by sample. *)
Definition mean_axis0 (channels : list (list Q)) : list Q :=
  match channels with
  | [] => []
  | c :: cs =>
      map (fun x => Qdiv x (inject_Z (Z.of_nat (length channels))))
          (fold_left add_rows cs c)
  end.

(** ** Base64, as [base64.b64encode] of the standard library *)

Definition b64_alphabet : list ascii :=
  list_ascii_of_string
    "ABCDEFGHIJKLMNOPQRSTUVWXYZabcdefghijklmnopqrstuvwxyz0123456789+/".

Definition b64_char (n : N) : ascii :=
  nth (N.to_nat n) b64_alphabet "="%char.

Fixpoint b64encode (bs : list Byte.byte) : string :=
  match bs with
  | [] => ""
  | [a] =>
      let x := Byte.to_N a in
      String (b64_char (x / 4))
        (String (b64_char ((x mod 4) * 16)) "==")
  | [a; b] =>
      let x := Byte.to_N a in
      let y := Byte.to_N b in
      String (b64_char (x / 4))
        (String (b64_char ((x mod 4) * 16 + y / 16))
           (String (b64_char ((y mod 16) * 4)) "="))
  | a :: b :: c :: rest =>
      let x := Byte.to_N a in
      let y := Byte.to_N b in
      let z := Byte.to_N c in
      String (b64_char (x / 4))
        (String (b64_char ((x mod 4) * 16 + y / 16))
           (String (b64_char ((y mod 16) * 4 + z / 64))
              (String (b64_char (z mod 64)) (b64encode rest))))
  end%N.

(** ** The external collaborators *)

(** A loaded model: [sample_rate], [set_generation_params],
    [generate], [generate_with_chroma].  A method returns its result or
    the exception it raises. *)
Record model : Type := {
  sample_rate : Z;
  set_generation_params : value -> option exn;
  generate : list value -> exn + list array;
  generate_with_chroma : list value -> array -> Z -> exn + list array
}.

(** Every call a handler makes outside this repository. *)
Inductive call : Type :=
| Import (module : string)
| GetPretrained (name : string)
| SetGenerationParams (duration : value)
| Generate (descriptions : list value)
| AudioRead (path : value)
| GenerateWithChroma (descriptions : list value)
| AudioWrite (stem_name : string) (wav : array) (rate : Z)
| OpenRb (path : string)
| Boto3Client
| UploadFile (file bucket key : string)
| Remote (prompt duration model_size message_deduplication_id : value).

(** A call as the stub records it: what was called and, when the call
    raised, the exception ([None] when it returned). *)
Definition event : Type := call * option exn.

(** The stub of the collaborators: what each call returns or raises. *)
Record world : Type := {
  (** [os.environ] *)
  environ : gmap string string;
  (** the imports at the head of a handler ([audiocraft], [torch], ...) *)
  import_audiocraft : option exn;
  (** [AudioGen.get_pretrained] and [MusicGen.get_pretrained] *)
  AudioGen_get_pretrained : string -> exn + model;
  MusicGen_get_pretrained : string -> exn + model;
  (** [datetime.now().strftime("%Y%m%d_%H%M%S")] *)
  now_strftime : string;
  (** [audio_write]: the bytes of the WAV file it writes, or what it raises *)
  audio_write : string -> array -> Z -> exn + list Byte.byte;
  (** an error of [open(path, 'rb')] other than a missing file *)
  open_error : string -> option exn;
  (** [audio_read] *)
  audio_read : value -> exn + (array * Z);
  (** [import boto3] and [boto3.client('s3', ...)] *)
  boto3_client : option exn;
  (** [s3_client.upload_file] *)
  upload_file : string -> string -> string -> option exn;
  (** the transport of [generate_music.remote] *)
  remote_error : option exn
}.

(** ** The monad of a handler *)

Record state : Type := {
  calls : list event;
  stdout : list string;
  files : gmap string (list Byte.byte)
}.

Definition initial : state := {| calls := []; stdout := []; files := ∅ |}.

Definition M (A : Type) : Type := state -> (exn + A) * state.

#[global] Instance M_ret : MRet M := fun A a s => (inr a, s).

#[global] Instance M_bind : MBind M := fun A B f m s =>
  match m s with
  | (inl e, s') => (inl e, s')
  | (inr a, s') => f a s'
  end.

(** [raise e] *)
Definition raise {A} (e : exn) : M A := fun s => (inl e, s).

(** an expression that evaluates or raises *)
Definition lift {A} (r : exn + A) : M A := fun s => (r, s).

(** [try: m except Exception as e: ...], the outcome handed to the
    continuation *)
Definition attempt {A} (m : M A) : M (exn + A) :=
  fun s => let (r, s') := m s in (inr r, s').

(** [try: body except Exception as e: handler] *)
Definition try_except {A} (body : M A) (handler : exn -> M A) : M A :=
  fun s => match body s with
           | (inl e, s') => handler e s'
           | (inr a, s') => (inr a, s')
           end.

Definition raised {A} (r : exn + A) : option exn :=
  match r with
  | inl e => Some e
  | inr _ => None
  end.

Definition outcome (r : option exn) : exn + unit :=
  match r with
  | Some e => inl e
  | None => inr tt
  end.

(** An external call [c] whose outcome is [r]: the call is recorded with
    its outcome, then returns or raises. *)
Definition invoke {A} (c : call) (r : exn + A) : M A :=
  fun s => (r, {| calls := calls s ++ [(c, raised r)]; stdout := stdout s;
                  files := files s |}).

Definition print (line : string) : M unit :=
  fun s => (inr tt, {| calls := calls s; stdout := stdout s ++ [line];
                       files := files s |}).

Definition write_file (path : string) (content : list Byte.byte) : M unit :=
  fun s => (inr tt, {| calls := calls s; stdout := stdout s;
                       files := <[path := content]> (files s) |}).

(** the outcome of reading [path] in a file system *)
Definition read_file (fs : gmap string (list Byte.byte)) (path : string)
  : exn + list Byte.byte :=
  match fs !! path with
  | Some content => inr content
  | None => inl (FileNotFoundError
                   ("[Errno 2] No such file or directory: '"
                    +:+ path +:+ "'"))
  end.

(** ** The calls, as the handlers make them *)

(** [os.getenv(name)] and [os.getenv(name, default)] *)
Definition os_getenv (w : world) (name : string) : option string :=
  environ w !! name.

Definition os_getenv_default (w : world) (name default : string) : string :=
  match environ w !! name with
  | Some v => v
  | None => default
  end.

Definition imports (w : world) : M unit :=
  invoke (Import "audiocraft") (outcome (import_audiocraft w)).

Definition AudioGen_load (w : world) (name : string) : M model :=
  invoke (GetPretrained name) (AudioGen_get_pretrained w name).

Definition MusicGen_load (w : world) (name : string) : M model :=
  invoke (GetPretrained name) (MusicGen_get_pretrained w name).

Definition configure (m : model) (duration : value) : M unit :=
  invoke (SetGenerationParams duration)
         (outcome (set_generation_params m duration)).

Definition run_generate (m : model) (descriptions : list value)
  : M (list array) :=
  invoke (Generate descriptions) (generate m descriptions).

(** [model.generate_with_chroma(descriptions,
    melody[None].expand(1, -1, -1), sr)] *)
Definition run_generate_with_chroma (m : model) (descriptions : list value)
    (melody : array) (sr : Z) : M (list array) :=
  invoke (GenerateWithChroma descriptions)
         (generate_with_chroma m descriptions melody sr).

Definition run_audio_read (w : world) (path : value) : M (array * Z) :=
  invoke (AudioRead path) (audio_read w path).

(** [audio_write(stem_name, wav, rate, strategy="loudness",
    loudness_compressor=True)] writes [stem_name + ".wav"]. *)
Definition run_audio_write (w : world) (stem_name : string) (wav : array)
    (rate : Z) : M unit :=
  content ← invoke (AudioWrite stem_name wav rate)
                   (audio_write w stem_name wav rate);
  write_file (stem_name +:+ ".wav") content.

(** [with open(path, 'rb') as f: f.read()] *)
Definition open_rb (w : world) (path : string) : M (list Byte.byte) :=
  fun s =>
    invoke (OpenRb path)
           (match open_error w path with
            | Some e => inl e
            | None => read_file (files s) path
            end) s.

Definition s3_client (w : world) : M unit :=
  invoke Boto3Client (outcome (boto3_client w)).

Definition s3_upload_file (w : world) (file bucket key : string) : M unit :=
  invoke (UploadFile file bucket key) (outcome (upload_file w file bucket key)).

(** [wav[0]] *)
Definition first_item (wav : list array) : M array :=
  match wav with
  | [] => raise (IndexError "index 0 is out of bounds for dimension 0 with size 0")
  | a :: _ => mret a
  end.

(** [duration < 1 or duration > 300] *)
Definition duration_out_of_range (duration : value) : exn + bool :=
  match py_lt duration 1 with
  | inl e => inl e
  | inr true => inr true
  | inr false => py_gt duration 300
  end.

(** [not prompt or not prompt.strip()] *)
Definition prompt_is_empty (prompt : value) : exn + bool :=
  if negb (truthy prompt) then inr true
  else match py_strip prompt with
       | inl e => inl e
       | inr stripped => inr (negb (truthy stripped))
       end.

(** [f"📝 Prompt: {prompt[:100]}{'...' if len(prompt) > 100 else ''}"] *)
Definition prompt_line (prompt : value) : exn + string :=
  match py_slice100 prompt with
  | inl e => inl e
  | inr head =>
      match py_len prompt with
      | inl e => inl e
      | inr n => inr ("📝 Prompt: " +:+ head
                      +:+ (if (n >? 100)%Z then "..." else ""))
      end
  end.

(** ** [validate_environment] (the same in both applications) *)

Definition required_vars : list string :=
  ["AWS_ACCESS_KEY_ID"; "AWS_SECRET_ACCESS_KEY"; "S3_BUCKET_NAME"].

(** [not os.getenv(var)] *)
Definition unset (w : world) (var : string) : bool :=
  match os_getenv w var with
  | None => true
  | Some v => String.eqb v ""
  end.

Definition missing_vars (w : world) : list string :=
  List.filter (unset w) required_vars.

Definition validate_environment (w : world) : M bool :=
  match missing_vars w with
  | _ :: _ =>
      print ("⚠️  Missing environment variables: "
             +:+ join ", " (missing_vars w));;
      print "💡 Run 'python3 setup_modal_secrets.py' to configure AWS credentials";;
      print "💡 Or use Modal secrets: modal secret create aws-credentials AWS_ACCESS_KEY_ID=... AWS_SECRET_ACCESS_KEY=...";;
      mret false
  | [] => mret true
  end.

Definition missing_credentials : string :=
  "Missing AWS credentials. Please run setup_modal_secrets.py or use Modal secrets".

(** ** [modal_app.py]: [generate_sfx] *)

Definition generate_sfx (w : world) (prompt duration : value) : M dict :=
  try_except
    (env_ok ← validate_environment w;
     if negb env_ok then mret {[ "error" := VStr missing_credentials ]} else
     imports w;;
     loaded ← attempt
       (print "🌐 Downloading public model from Hugging Face";;
        AudioGen_load w "facebook/audiogen-medium");
     match loaded with
     | inl model_error =>
         print ("❌ Failed to load AudioGen model: " +:+ str_exn model_error);;
         mret {[ "error" :=
                   VStr ("Model loading failed: " +:+ str_exn model_error) ]}
     | inr model =>
     out_of_range ← lift (duration_out_of_range duration);
     if out_of_range : bool then
       mret {[ "error" := VStr "Duration must be between 1 and 300 seconds" ]}
     else
     empty ← lift (prompt_is_empty prompt);
     if empty : bool then
       mret {[ "error" := VStr "Prompt cannot be empty" ]}
     else
     configure model duration;;
     print ("🎵 Generating " +:+ str_value duration +:+ "-second audio...");;
     line ← lift (prompt_line prompt);
     print line;;
     generated ← attempt (run_generate model [prompt]);
     match generated with
     | inl gen_error =>
         print ("❌ Audio generation failed: " +:+ str_exn gen_error);;
         mret {[ "error" :=
                   VStr ("Audio generation failed: " +:+ str_exn gen_error) ]}
     | inr wav =>
     audio_values ← first_item wav;
     let sampling_rate := sample_rate model in
     print ("✅ Audio generated successfully! Sample rate: "
            +:+ pretty sampling_rate +:+ "Hz");;
     let timestamp := now_strftime w in
     let filename := "generated_audio_" +:+ timestamp in
     run_audio_write w filename audio_values sampling_rate;;
     let wav_filename := filename +:+ ".wav" in
     audio_bytes ← open_rb w wav_filename;
     let audio_base64 := b64encode audio_bytes in
     print ("💾 Saved locally: " +:+ wav_filename);;
     uploaded ← attempt
       (s3_client w;;
        let bucket_name := os_getenv_default w "S3_BUCKET_NAME" "audiogen-demo" in
        let s3_key := "audio/" +:+ wav_filename in
        s3_upload_file w wav_filename bucket_name s3_key;;
        let s3_uri := "s3://" +:+ bucket_name +:+ "/" +:+ s3_key in
        print ("✅ Audio uploaded to S3: " +:+ s3_uri);;
        mret (list_to_map
                [ ("success", VBool true);
                  ("audio_base64", VStr audio_base64);
                  ("sampling_rate", VInt sampling_rate);
                  ("duration", duration);
                  ("format", VStr "wav");
                  ("filename", VStr wav_filename);
                  ("file_size_bytes", VInt (Z.of_nat (length audio_bytes)));
                  ("s3_uri", VStr s3_uri);
                  ("s3_bucket", VStr bucket_name);
                  ("s3_key", VStr s3_key);
                  ("prompt_used", prompt) ] : dict));
     match uploaded with
     | inr result => mret result
     | inl s3_error =>
         print ("⚠️  S3 upload failed: " +:+ str_exn s3_error);;
         mret (list_to_map
                 [ ("success", VBool true);
                   ("audio_base64", VStr audio_base64);
                   ("sampling_rate", VInt sampling_rate);
                   ("duration", duration);
                   ("format", VStr "wav");
                   ("filename", VStr wav_filename);
                   ("file_size_bytes", VInt (Z.of_nat (length audio_bytes)));
                   ("prompt_used", prompt) ] : dict)
     end
     end
     end)
    (fun e =>
       print ("❌ Unexpected error: " +:+ str_exn e);;
       mret {[ "error" := VStr (str_exn e) ]}).

(** ** [musicgen_app.py] *)

Definition valid_models : list string := ["small"; "medium"; "large"; "melody"].

(** [v in l] for a list of [str] *)
Definition py_in (v : value) (l : list string) : bool :=
  match v with
  | VStr s => existsb (String.eqb s) l
  | _ => false
  end.

(** [a.mean(axis=0)]; on a one-dimensional array the result is the
    scalar average, kept here as an array of one sample. *)
Definition array_mean_axis0 (a : array) : array :=
  match a with
  | Arr2 channels => Arr1 (mean_axis0 channels)
  | Arr1 samples => Arr1 (mean_axis0 (map (fun x => [x]) samples))
  end.

(** [if audio_values.ndim > 1: audio_values = audio_values.mean(axis=0)] *)
Definition to_mono (audio_values : array) : array :=
  if (1 <? ndim audio_values)%nat then array_mean_axis0 audio_values
  else audio_values.

Definition generate_music (w : world)
    (prompt duration model_size message_deduplication_id : value) : M dict :=
  try_except
    (env_ok ← validate_environment w;
     if negb env_ok then mret {[ "error" := VStr missing_credentials ]} else
     imports w;;
     if negb (py_in model_size valid_models) then
       mret {[ "error" := VStr ("Invalid model size. Must be one of: "
                                 +:+ join ", " valid_models) ]}
     else
     loaded ← attempt
       (print ("🌐 Loading MusicGen " +:+ str_value model_size +:+ " model...");;
        MusicGen_load w ("facebook/musicgen-" +:+ str_value model_size));
     match loaded with
     | inl model_error =>
         print ("❌ Failed to load MusicGen model: " +:+ str_exn model_error);;
         mret {[ "error" :=
                   VStr ("Model loading failed: " +:+ str_exn model_error) ]}
     | inr model =>
     out_of_range ← lift (duration_out_of_range duration);
     if out_of_range : bool then
       mret {[ "error" := VStr "Duration must be between 1 and 300 seconds" ]}
     else
     empty ← lift (prompt_is_empty prompt);
     if empty : bool then
       mret {[ "error" := VStr "Prompt cannot be empty" ]}
     else
     configure model duration;;
     print ("🎵 Generating " +:+ str_value duration +:+ "-second music...");;
     line ← lift (prompt_line prompt);
     print line;;
     generated ← attempt (run_generate model [prompt]);
     match generated with
     | inl gen_error =>
         print ("❌ Music generation failed: " +:+ str_exn gen_error);;
         mret {[ "error" :=
                   VStr ("Music generation failed: " +:+ str_exn gen_error) ]}
     | inr wav =>
     audio_values ← first_item wav;
     let audio_values := to_mono audio_values in
     let sampling_rate := sample_rate model in
     print ("✅ Music generated successfully! Sample rate: "
            +:+ pretty sampling_rate +:+ "Hz");;
     let timestamp := now_strftime w in
     filename ←
       (if truthy message_deduplication_id then
          print ("📁 Using message_deduplication_id for filename: "
                 +:+ str_value message_deduplication_id);;
          mret ("musicgen_" +:+ str_value message_deduplication_id
                +:+ "_" +:+ timestamp)
        else
          print "⚠️  No message_deduplication_id provided, using default filename pattern";;
          mret ("generated_music_" +:+ timestamp));
     run_audio_write w filename audio_values sampling_rate;;
     let wav_filename := filename +:+ ".wav" in
     audio_bytes ← open_rb w wav_filename;
     let audio_base64 := b64encode audio_bytes in
     print ("💾 Saved locally: " +:+ wav_filename);;
     uploaded ← attempt
       (s3_client w;;
        let bucket_name := os_getenv_default w "S3_BUCKET_NAME" "audic-musicgen" in
        let s3_key :=
          if truthy message_deduplication_id then
            "musicgen/" +:+ str_value message_deduplication_id
            +:+ "/" +:+ wav_filename
          else "audio/" +:+ wav_filename in
        s3_upload_file w wav_filename bucket_name s3_key;;
        let s3_uri := "s3://" +:+ bucket_name +:+ "/" +:+ s3_key in
        print ("✅ Music uploaded to S3: " +:+ s3_uri);;
        mret (list_to_map
                [ ("success", VBool true);
                  ("audio_base64", VStr audio_base64);
                  ("sampling_rate", VInt sampling_rate);
                  ("duration", duration);
                  ("format", VStr "wav");
                  ("filename", VStr wav_filename);
                  ("file_size_bytes", VInt (Z.of_nat (length audio_bytes)));
                  ("s3_uri", VStr s3_uri);
                  ("s3_bucket", VStr bucket_name);
                  ("s3_key", VStr s3_key);
                  ("prompt_used", prompt);
                  ("model_size", model_size);
                  ("message_deduplication_id", message_deduplication_id) ]
              : dict));
     match uploaded with
     | inr result => mret result
     | inl s3_error =>
         print ("⚠️  S3 upload failed: " +:+ str_exn s3_error);;
         mret (list_to_map
                 [ ("success", VBool true);
                   ("audio_base64", VStr audio_base64);
                   ("sampling_rate", VInt sampling_rate);
                   ("duration", duration);
                   ("format", VStr "wav");
                   ("filename", VStr wav_filename);
                   ("file_size_bytes", VInt (Z.of_nat (length audio_bytes)));
                   ("prompt_used", prompt);
                   ("model_size", model_size);
                   ("message_deduplication_id", message_deduplication_id) ]
               : dict)
     end
     end
     end)
    (fun e =>
       print ("❌ Unexpected error: " +:+ str_exn e);;
       mret {[ "error" := VStr (str_exn e) ]}).

Definition generate_music_with_melody (w : world)
    (prompt melody_path duration message_deduplication_id : value) : M dict :=
  try_except
    (env_ok ← validate_environment w;
     if negb env_ok then mret {[ "error" := VStr missing_credentials ]} else
     imports w;;
     loaded ← attempt
       (print "🌐 Loading MusicGen Melody model...";;
        MusicGen_load w "facebook/musicgen-melody");
     match loaded with
     | inl model_error =>
         print ("❌ Failed to load MusicGen Melody model: "
                +:+ str_exn model_error);;
         mret {[ "error" :=
                   VStr ("Model loading failed: " +:+ str_exn model_error) ]}
     | inr model =>
     out_of_range ← lift (duration_out_of_range duration);
     if out_of_range : bool then
       mret {[ "error" := VStr "Duration must be between 1 and 300 seconds" ]}
     else
     empty ← lift (prompt_is_empty prompt);
     if empty : bool then
       mret {[ "error" := VStr "Prompt cannot be empty" ]}
     else
     configure model duration;;
     print ("🎵 Generating " +:+ str_value duration
            +:+ "-second music with melody...");;
     line ← lift (prompt_line prompt);
     print line;;
     read ← attempt
       (melody_sr ← run_audio_read w melody_path;
        print ("🎼 Loaded reference melody: " +:+ str_value melody_path);;
        mret melody_sr);
     match read with
     | inl melody_error =>
         print ("❌ Failed to load melody: " +:+ str_exn melody_error);;
         mret {[ "error" :=
                   VStr ("Melody loading failed: " +:+ str_exn melody_error) ]}
     | inr (melody, sr) =>
     generated ← attempt (run_generate_with_chroma model [prompt] melody sr);
     match generated with
     | inl gen_error =>
         print ("❌ Music generation failed: " +:+ str_exn gen_error);;
         mret {[ "error" :=
                   VStr ("Music generation failed: " +:+ str_exn gen_error) ]}
     | inr wav =>
     audio_values ← first_item wav;
     let audio_values := to_mono audio_values in
     let sampling_rate := sample_rate model in
     print ("✅ Music with melody generated successfully! Sample rate: "
            +:+ pretty sampling_rate +:+ "Hz");;
     let timestamp := now_strftime w in
     filename ←
       (if truthy message_deduplication_id then
          print ("📁 Using message_deduplication_id for melody filename: "
                 +:+ str_value message_deduplication_id);;
          mret ("musicgen_melody_" +:+ str_value message_deduplication_id
                +:+ "_" +:+ timestamp)
        else
          print "⚠️  No message_deduplication_id provided for melody, using default filename pattern";;
          mret ("generated_music_melody_" +:+ timestamp));
     run_audio_write w filename audio_values sampling_rate;;
     let wav_filename := filename +:+ ".wav" in
     audio_bytes ← open_rb w wav_filename;
     let audio_base64 := b64encode audio_bytes in
     print ("💾 Saved locally: " +:+ wav_filename);;
     uploaded ← attempt
       (s3_client w;;
        let bucket_name := os_getenv_default w "S3_BUCKET_NAME" "audic-musicgen" in
        let s3_key :=
          if truthy message_deduplication_id then
            "musicgen/" +:+ str_value message_deduplication_id
            +:+ "/" +:+ wav_filename
          else "audio/" +:+ wav_filename in
        s3_upload_file w wav_filename bucket_name s3_key;;
        let s3_uri := "s3://" +:+ bucket_name +:+ "/" +:+ s3_key in
        print ("✅ Music with melody uploaded to S3: " +:+ s3_uri);;
        mret (list_to_map
                [ ("success", VBool true);
                  ("audio_base64", VStr audio_base64);
                  ("sampling_rate", VInt sampling_rate);
                  ("duration", duration);
                  ("format", VStr "wav");
                  ("filename", VStr wav_filename);
                  ("file_size_bytes", VInt (Z.of_nat (length audio_bytes)));
                  ("s3_uri", VStr s3_uri);
                  ("s3_bucket", VStr bucket_name);
                  ("s3_key", VStr s3_key);
                  ("prompt_used", prompt);
                  ("model_size", VStr "melody");
                  ("melody_path", melody_path);
                  ("message_deduplication_id", message_deduplication_id) ]
              : dict));
     match uploaded with
     | inr result => mret result
     | inl s3_error =>
         print ("⚠️  S3 upload failed: " +:+ str_exn s3_error);;
         mret (list_to_map
                 [ ("success", VBool true);
                   ("audio_base64", VStr audio_base64);
                   ("sampling_rate", VInt sampling_rate);
                   ("duration", duration);
                   ("format", VStr "wav");
                   ("filename", VStr wav_filename);
                   ("file_size_bytes", VInt (Z.of_nat (length audio_bytes)));
                   ("prompt_used", prompt);
                   ("model_size", VStr "melody");
                   ("melody_path", melody_path);
                   ("message_deduplication_id", message_deduplication_id) ]
               : dict)
     end
     end
     end
     end)
    (fun e =>
       print ("❌ Unexpected error: " +:+ str_exn e);;
       mret {[ "error" := VStr (str_exn e) ]}).

(** [request.get(key, default)] *)
Definition py_get (request : dict) (key : string) (default : value) : value :=
  match request !! key with
  | Some v => v
  | None => default
  end.

(** [generate_music.remote(...)]: the call is shipped to a worker, which
    runs [generate_music]; the transport may raise. *)
Definition generate_music_remote (w : world)
    (prompt duration model_size message_deduplication_id : value) : M dict :=
  invoke (Remote prompt duration model_size message_deduplication_id)
         (outcome (remote_error w));;
  generate_music w prompt duration model_size message_deduplication_id.

Definition generate_music_endpoint (w : world) (request : dict) : M dict :=
  try_except
    (let prompt := py_get request "prompt" VNone in
     let duration := py_get request "duration" (VInt 30) in
     let model_size := py_get request "model_size" (VStr "large") in
     let message_deduplication_id :=
       py_get request "message_deduplication_id" VNone in
     if negb (truthy prompt) then
       mret (list_to_map [ ("success", VBool false);
                           ("error", VStr "prompt is required") ] : dict)
     else
     result ← generate_music_remote w prompt duration model_size
                message_deduplication_id;
     mret result)
    (fun e =>
       mret (list_to_map [ ("success", VBool false);
                           ("error", VStr (str_exn e)) ] : dict)).

(** ** Invocations *)

(** A call of one of the three generation functions, with its arguments. *)
Inductive invocation : Type :=
| Sfx (prompt duration : value)
| Music (prompt duration model_size message_deduplication_id : value)
| Melody (prompt melody_path duration message_deduplication_id : value).

Definition handle (w : world) (i : invocation) : M dict :=
  match i with
  | Sfx prompt duration => generate_sfx w prompt duration
  | Music prompt duration model_size message_deduplication_id =>
      generate_music w prompt duration model_size message_deduplication_id
  | Melody prompt melody_path duration message_deduplication_id =>
      generate_music_with_melody w prompt melody_path duration
        message_deduplication_id
  end.

Definition prompt_of (i : invocation) : value :=
  match i with
  | Sfx prompt _ | Music prompt _ _ _ | Melody prompt _ _ _ => prompt
  end.

Definition duration_of (i : invocation) : value :=
  match i with
  | Sfx _ duration | Music _ duration _ _ | Melody _ _ duration _ => duration
  end.

(** One invocation on a fresh worker: nothing called or printed yet, [fs]
    the files already there. *)
Definition run {A} (m : M A) (fs : gmap string (list Byte.byte))
  : (exn + A) * state :=
  m {| calls := []; stdout := []; files := fs |}.

(** The two shapes of a result. *)
Definition error_shaped (d : dict) : Prop :=
  ∃ msg, d = {[ "error" := VStr msg ]}.

Definition success_shaped (d : dict) : Prop :=
  d !! "success" = Some (VBool true).

(** The calls of the stages after validation. *)
Definition after_validation (c : call) : bool :=
  match c with
  | Import _ | GetPretrained _ | Remote _ _ _ _ => false
  | _ => true
  end.

(** The calls of the Upload stage. *)
Definition upload_call (c : call) : bool :=
  match c with
  | Boto3Client | UploadFile _ _ _ => true
  | _ => false
  end.

(** ** Stubs, for the examples *)

Definition stereo : array := Arr2 [[1 # 2; 1 # 4]; [1 # 4; 1 # 2]]%Q.

Definition stub_model : model := {|
  sample_rate := 32000;
  set_generation_params := fun _ => None;
  generate := fun _ => inr [stereo];
  generate_with_chroma := fun _ _ _ => inr [stereo]
|}.

Definition riff : list Byte.byte :=
  map byte_of_ascii (list_ascii_of_string "RIFF").

Definition stub_world : world := {|
  environ := list_to_map [ ("AWS_ACCESS_KEY_ID", "AKIA");
                           ("AWS_SECRET_ACCESS_KEY", "secret");
                           ("S3_BUCKET_NAME", "bucket") ];
  import_audiocraft := None;
  AudioGen_get_pretrained := fun _ => inr stub_model;
  MusicGen_get_pretrained := fun _ => inr stub_model;
  now_strftime := "20240101_120000";
  audio_write := fun _ _ _ => inr riff;
  open_error := fun _ => None;
  audio_read := fun _ => inr (Arr2 [[0 # 1]]%Q, 32000%Z);
  boto3_client := None;
  upload_file := fun _ _ _ => None;
  remote_error := None
|}.

(** the same, with an upload adapter that always throws *)
Definition stub_world_no_upload : world := {|
  environ := environ stub_world;
  import_audiocraft := None;
  AudioGen_get_pretrained := fun _ => inr stub_model;
  MusicGen_get_pretrained := fun _ => inr stub_model;
  now_strftime := "20240101_120000";
  audio_write := fun _ _ _ => inr riff;
  open_error := fun _ => None;
  audio_read := fun _ => inr (Arr2 [[0 # 1]]%Q, 32000%Z);
  boto3_client := None;
  upload_file := fun _ _ _ => Some (Exception "ClientError" "Access Denied");
  remote_error := None
|}.

(** The handler got past validation: it went on to configure the model. *)
Definition passed_validation (s : state) : Prop :=
  ∃ duration o, In (SetGenerationParams duration, o) (calls s).

(** The model variant is one the handler loads: for [generate_music], a
    member of [valid_models]; the other two handlers load a fixed model. *)
Definition variant_valid (i : invocation) : Prop :=
  match i with
  | Music _ _ model_size _ => py_in model_size valid_models = true
  | _ => True
  end.

(** [raw] is what the model returns for the invocation, as [wav[0]]. *)
Definition raw_output (w : world) (i : invocation) (raw : array) : Prop :=
  ∃ m rest,
    match i with
    | Sfx prompt _ =>
        AudioGen_get_pretrained w "facebook/audiogen-medium" = inr m
        ∧ generate m [prompt] = inr (raw :: rest)
    | Music prompt _ model_size _ =>
        MusicGen_get_pretrained w ("facebook/musicgen-" +:+ str_value model_size)
        = inr m
        ∧ generate m [prompt] = inr (raw :: rest)
    | Melody prompt melody_path _ _ =>
        MusicGen_get_pretrained w "facebook/musicgen-melody" = inr m
        ∧ ∃ melody sr, audio_read w melody_path = inr (melody, sr)
                       ∧ generate_with_chroma m [prompt] melody sr
                         = inr (raw :: rest)
    end.

(** ** Decoding Base64 *)

(** the position of a character in the alphabet *)
Fixpoint index_of (c : ascii) (l : list ascii) : N :=
  match l with
  | [] => 0
  | x :: l' => if Ascii.eqb c x then 0 else N.succ (index_of c l')
  end.

Definition b64_index (c : ascii) : N := index_of c b64_alphabet.

Definition byte_of_N (n : N) : Byte.byte :=
  match Byte.of_N n with
  | Some b => b
  | None => Byte.x00
  end.

(** [base64.b64decode] on a padded encoding; it is here to show that
    [b64encode] loses nothing. *)
Fixpoint b64decode (s : string) : list Byte.byte :=
  match s with
  | String c0 (String c1 (String c2 (String c3 rest))) =>
      let v0 := b64_index c0 in
      let v1 := b64_index c1 in
      let v2 := b64_index c2 in
      let v3 := b64_index c3 in
      if Ascii.eqb c2 "=" then [byte_of_N (v0 * 4 + v1 / 16)]
      else if Ascii.eqb c3 "=" then
        [byte_of_N (v0 * 4 + v1 / 16); byte_of_N ((v1 mod 16) * 16 + v2 / 4)]
      else
        byte_of_N (v0 * 4 + v1 / 16)
        :: byte_of_N ((v1 mod 16) * 16 + v2 / 4)
        :: byte_of_N ((v2 mod 4) * 64 + v3)
        :: b64decode rest
  | _ => []
  end%N.

(** ** The storage key *)

(** The deduplication token of an invocation; [generate_sfx] takes none. *)
Definition token_of (i : invocation) : value :=
  match i with
  | Sfx _ _ => VNone
  | Music _ _ _ message_deduplication_id
  | Melody _ _ _ message_deduplication_id => message_deduplication_id
  end.

(** The key under which [wav_filename] is uploaded. *)
Definition storage_key (i : invocation) (wav_filename : string) : string :=
  if truthy (token_of i) then
    "musicgen/" +:+ str_value (token_of i) +:+ "/" +:+ wav_filename
  else "audio/" +:+ wav_filename.

(** ** The stages of a request *)

(** The place of a call in the text of a handler. *)
Definition stage (c : call) : nat :=
  match c with
  | Remote _ _ _ _ => 0
  | Import _ => 1
  | GetPretrained _ => 2
  | SetGenerationParams _ => 3
  | AudioRead _ => 4
  | Generate _ | GenerateWithChroma _ => 5
  | AudioWrite _ _ _ => 6
  | OpenRb _ => 7
  | Boto3Client => 8
  | UploadFile _ _ _ => 9
  end.

Fixpoint increasing (l : list nat) : bool :=
  match l with
  | x :: l' =>
      match l' with
      | y :: _ => (x <? y)%nat && increasing l'
      | [] => true
      end
  | [] => true
  end.

(** every call but the last returned *)
Fixpoint returned_but_last (l : list event) : bool :=
  match l with
  | (_, o) :: l' =>
      match l' with
      | _ :: _ => bool_decide (o = None) && returned_but_last l'
      | [] => true
      end
  | [] => true
  end.

(** ** The file a handler writes *)

(** The [filename] of a handler, for the timestamp [timestamp]. *)
Definition stem_of (i : invocation) (timestamp : string) : string :=
  match i with
  | Sfx _ _ => "generated_audio_" +:+ timestamp
  | Music _ _ _ message_deduplication_id =>
      if truthy message_deduplication_id then
        "musicgen_" +:+ str_value message_deduplication_id +:+ "_" +:+ timestamp
      else "generated_music_" +:+ timestamp
  | Melody _ _ _ message_deduplication_id =>
      if truthy message_deduplication_id then
        "musicgen_melody_" +:+ str_value message_deduplication_id
        +:+ "_" +:+ timestamp
      else "generated_music_melody_" +:+ timestamp
  end.

(** The second argument of [os.getenv('S3_BUCKET_NAME', ...)]. *)
Definition default_bucket (i : invocation) : string :=
  match i with
  | Sfx _ _ => "audiogen-demo"
  | _ => "audic-musicgen"
  end.

(** The model a handler asks for, and what [get_pretrained] answers. *)
Definition model_name (i : invocation) : string :=
  match i with
  | Sfx _ _ => "facebook/audiogen-medium"
  | Music _ _ model_size _ => "facebook/musicgen-" +:+ str_value model_size
  | Melody _ _ _ _ => "facebook/musicgen-melody"
  end.

Definition loaded_model (w : world) (i : invocation) : exn + model :=
  match i with
  | Sfx _ _ => AudioGen_get_pretrained w (model_name i)
  | _ => MusicGen_get_pretrained w (model_name i)
  end.

(** What a handler puts before [str(e)] when the call [c] raises [e]. *)
Definition failure_prefix (i : invocation) (c : call) : string :=
  match c with
  | GetPretrained _ => "Model loading failed: "
  | AudioRead _ => "Melody loading failed: "
  | Generate _ | GenerateWithChroma _ =>
      match i with
      | Sfx _ _ => "Audio generation failed: "
      | _ => "Music generation failed: "
      end
  | _ => ""
  end.

(** what [validate_environment] prints when a variable is missing *)
Definition missing_report (w : world) : list string :=
  [ "⚠️  Missing environment variables: " +:+ join ", " (missing_vars w);
    "💡 Run 'python3 setup_modal_secrets.py' to configure AWS credentials";
    "💡 Or use Modal secrets: modal secret create aws-credentials AWS_ACCESS_KEY_ID=... AWS_SECRET_ACCESS_KEY=..." ].

(** ** A handler only appends to the log *)

(** [m] reads nothing of the state but the files, and appends what it
    calls and prints to what was called and printed before. *)
Definition appends {A} (m : M A) : Prop :=
  ∀ s, m s
       = let (r, s') := m {| calls := []; stdout := []; files := files s |} in
         (r, {| calls := calls s ++ calls s'; stdout := stdout s ++ stdout s';
                files := files s' |}).

(** ** [health_check] (the same in both applications) *)

(** The values of a health report: [bool], [str], list of [str]. *)
Inductive report_value : Type :=
| RBool (b : bool)
| RStr (s : string)
| RList (l : list string).

Definition report : Type := gmap string report_value.

(** [isinstance(e, ImportError)]: [ImportError] and the classes the
    standard library derives from it. *)
Definition is_ImportError (e : exn) : bool :=
  existsb (String.eqb (exn_class e))
          ["ImportError"; "ModuleNotFoundError"; "ZipImportError"].

(** [try: import name
     except ImportError: missing_imports.append(name); import_status = False],
    with [missing_imports] and [import_status] before and after. *)
Definition try_import (import_module : string -> option exn) (name : string)
    (missing_imports : list string) (import_status : bool)
  : M (list string * bool) :=
  imported ← attempt (invoke (Import name) (outcome (import_module name)));
  match imported with
  | inr _ => mret (missing_imports, import_status)
  | inl e =>
      if is_ImportError e then mret ((missing_imports ++ [name])%list, false)
      else raise e
  end.

Definition health_check (w : world) (import_module : string -> option exn)
  : M report :=
  try_except
    (env_status ← validate_environment w;
     let import_status := true in
     let missing_imports := [] in
     r ← try_import import_module "torch" missing_imports import_status;
     let '(missing_imports, import_status) := r in
     r ← try_import import_module "scipy" missing_imports import_status;
     let '(missing_imports, import_status) := r in
     r ← try_import import_module "boto3" missing_imports import_status;
     let '(missing_imports, import_status) := r in
     mret (list_to_map
             [ ("status", RStr (if env_status && import_status
                                then "healthy" else "unhealthy"));
               ("environment_valid", RBool env_status);
               ("imports_valid", RBool import_status);
               ("missing_imports", RList missing_imports);
               ("gpu_available", RBool true);
               ("modal_version", RStr "1.1.0") ] : report))
    (fun e =>
       mret (list_to_map [ ("status", RStr "error");
                           ("error", RStr (str_exn e)) ] : report)).

(** the modules [health_check] imports, in order *)
Definition checked_modules : list string := ["torch"; "scipy"; "boto3"].

(** the import of [name] raises an [ImportError] *)
Definition not_installed (import_module : string -> option exn)
    (name : string) : bool :=
  match import_module name with
  | Some e => is_ImportError e
  | None => false
  end.

(** the import of [name] raises something else *)
Definition broken (import_module : string -> option exn) (name : string)
  : bool :=
  match import_module name with
  | Some e => negb (is_ImportError e)
  | None => false
  end.

(** ** More stubs, for the examples *)

(** no variable set *)
Definition stub_world_no_env : world := {|
  environ := ∅;
  import_audiocraft := None;
  AudioGen_get_pretrained := fun _ => inr stub_model;
  MusicGen_get_pretrained := fun _ => inr stub_model;
  now_strftime := "20240101_120000";
  audio_write := fun _ _ _ => inr riff;
  open_error := fun _ => None;
  audio_read := fun _ => inr (Arr2 [[0 # 1]]%Q, 32000%Z);
  boto3_client := None;
  upload_file := fun _ _ _ => None;
  remote_error := None
|}.

(** the download of a model fails *)
Definition stub_world_no_model : world := {|
  environ := environ stub_world;
  import_audiocraft := None;
  AudioGen_get_pretrained :=
    fun _ => inl (Exception "OSError" "No space left on device");
  MusicGen_get_pretrained :=
    fun _ => inl (Exception "OSError" "No space left on device");
  now_strftime := "20240101_120000";
  audio_write := fun _ _ _ => inr riff;
  open_error := fun _ => None;
  audio_read := fun _ => inr (Arr2 [[0 # 1]]%Q, 32000%Z);
  boto3_client := None;
  upload_file := fun _ _ _ => None;
  remote_error := None
|}.

(** a model that cannot generate *)
Definition failing_model : model := {|
  sample_rate := 32000;
  set_generation_params := fun _ => None;
  generate := fun _ => inl (Exception "RuntimeError" "CUDA out of memory");
  generate_with_chroma :=
    fun _ _ _ => inl (Exception "RuntimeError" "CUDA out of memory")
|}.

Definition stub_world_no_generation : world := {|
  environ := environ stub_world;
  import_audiocraft := None;
  AudioGen_get_pretrained := fun _ => inr failing_model;
  MusicGen_get_pretrained := fun _ => inr failing_model;
  now_strftime := "20240101_120000";
  audio_write := fun _ _ _ => inr riff;
  open_error := fun _ => None;
  audio_read := fun _ => inr (Arr2 [[0 # 1]]%Q, 32000%Z);
  boto3_client := None;
  upload_file := fun _ _ _ => None;
  remote_error := None
|}.

(** the reference melody cannot be read *)
Definition stub_world_no_melody : world := {|
  environ := environ stub_world;
  import_audiocraft := None;
  AudioGen_get_pretrained := fun _ => inr stub_model;
  MusicGen_get_pretrained := fun _ => inr stub_model;
  now_strftime := "20240101_120000";
  audio_write := fun _ _ _ => inr riff;
  open_error := fun _ => None;
  audio_read := fun _ => inl (Exception "RuntimeError" "Failed to open the input");
  boto3_client := None;
  upload_file := fun _ _ _ => None;
  remote_error := None
|}.

(** the WAV file cannot be written *)
Definition stub_world_no_write : world := {|
  environ := environ stub_world;
  import_audiocraft := None;
  AudioGen_get_pretrained := fun _ => inr stub_model;
  MusicGen_get_pretrained := fun _ => inr stub_model;
  now_strftime := "20240101_120000";
  audio_write := fun _ _ _ => inl (Exception "OSError" "Read-only file system");
  open_error := fun _ => None;
  audio_read := fun _ => inr (Arr2 [[0 # 1]]%Q, 32000%Z);
  boto3_client := None;
  upload_file := fun _ _ _ => None;
  remote_error := None
|}.

(** [import] on a machine without [scipy] *)
Definition stub_imports (name : string) : option exn :=
  if String.eqb name "scipy" then
    Some (Exception "ModuleNotFoundError" "No module named 'scipy'")
  else None.

(** [import] on a machine where [scipy] fails to load *)
Definition stub_imports_broken (name : string) : option exn :=
  if String.eqb name "scipy" then
    Some (Exception "OSError" "libopenblas.so.0: cannot open shared object file")
  else None.

(** Two invocations of one handler with the same deduplication token. *)
Definition same_target (i1 i2 : invocation) : Prop :=
  match i1, i2 with
  | Sfx _ _, Sfx _ _ => True
  | Music _ _ _ id1, Music _ _ _ id2 => id1 = id2
  | Melody _ _ _ id1, Melody _ _ _ id2 => id1 = id2
  | _, _ => False
  end.

(** the success result of [generate_sfx "rain" 5] on the stubs *)
Definition stub_result : dict :=
  list_to_map
    [ ("success", VBool true);
      ("audio_base64", VStr "UklGRg==");
      ("sampling_rate", VInt 32000);
      ("duration", VInt 5);
      ("format", VStr "wav");
      ("filename", VStr "generated_audio_20240101_120000.wav");
      ("file_size_bytes", VInt 4);
      ("s3_uri", VStr "s3://bucket/audio/generated_audio_20240101_120000.wav");
      ("s3_bucket", VStr "bucket");
      ("s3_key", VStr "audio/generated_audio_20240101_120000.wav");
      ("prompt_used", VStr "rain") ].


(** * Proofs *)

(** ** Symbolic execution of a handler *)

Ltac exec :=
  cbv beta iota zeta delta
    [run handle generate_sfx generate_music generate_music_with_melody
     generate_music_endpoint generate_music_remote
     validate_environment try_except attempt lift raise invoke print
     write_file imports AudioGen_load MusicGen_load configure
     run_generate run_generate_with_chroma run_audio_read run_audio_write
     open_rb s3_client s3_upload_file first_item raised outcome
     mbind mret M_bind M_ret fst snd calls stdout files negb app].

(** case analysis on the innermost undetermined outcome *)
Ltac step :=
  match goal with
  | |- context [match ?x with _ => _ end] =>
      lazymatch x with
      | context [match _ with _ => _ end] => fail
      | _ => destruct x eqn:?
      end
  end.

Ltac paths := exec; repeat (step; exec).

(** For a goal about [run m fs]: the outcome is named and the property
    to prove of it folded, so that the paths of the run are explored in
    the equation [out = run m fs] alone; the property is unfolded at the
    end of each path. *)
Ltac all_paths :=
  let out := fresh "out" in
  let Q := fresh "Q" in
  let H := fresh "Hrun" in
  cbv zeta;
  match goal with
  | |- context [run ?m ?fs] => remember (run m fs) as out eqn:H
  end;
  pattern out;
  match goal with
  | |- ?P _ => set (Q := P)
  end;
  revert H; paths; intros ->; subst Q; exec.

(** ** [strip] and the two checks *)

Lemma rstrip_empty (s : string) : rstrip s = "" ↔ blank s = true.
Proof.
  induction s as [|c s IH]; simpl; [done|].
  destruct (rstrip s) eqn:Hr.
  - destruct (isspace c); simpl.
    + split; [intros _; by apply IH | done].
    + split; done.
  - split; [done|]. intros [_ Hb]%andb_true_iff. by apply IH in Hb.
Qed.

Lemma blank_lstrip (s : string) : blank (lstrip s) = blank s.
Proof.
  induction s as [|c s IH]; simpl; [done|].
  destruct (isspace c) eqn:Hc; simpl; [done | by rewrite Hc].
Qed.

Lemma strip_empty (s : string) : strip s = "" ↔ blank s = true.
Proof. unfold strip. by rewrite rstrip_empty, blank_lstrip. Qed.

Lemma strip_eqb (s : string) : String.eqb (strip s) "" = blank s.
Proof.
  destruct (blank s) eqn:Hb.
  - apply strip_empty in Hb. by rewrite Hb.
  - apply String.eqb_neq. intros Hs%strip_empty. congruence.
Qed.

Lemma duration_out_of_range_int (d : Z) :
  duration_out_of_range (VInt d) = inr ((d <? 1)%Z || (d >? 300)%Z).
Proof.
  unfold duration_out_of_range; simpl. by destruct (d <? 1)%Z.
Qed.

Lemma prompt_is_empty_str (p : string) :
  prompt_is_empty (VStr p) = inr (blank p).
Proof.
  unfold prompt_is_empty; simpl. rewrite negb_involutive.
  destruct p as [|c p]; [done|]. simpl String.eqb. cbv iota.
  by rewrite negb_involutive, strip_eqb.
Qed.

Ltac in_calls H :=
  cbn [In] in H;
  repeat match type of H with
         | _ ∨ _ => destruct H as [H | H]
         | False => destruct H
         end;
  simplify_eq.

(** an event is among the calls of a finished path *)
Ltac called := cbn [In]; repeat (first [left; reflexivity | right]).

Lemma duration_rejected (d : Z) :
  duration_out_of_range (VInt d) = inr true ↔ (d < 1 ∨ 300 < d)%Z.
Proof.
  rewrite duration_out_of_range_int. split.
  - intros [= H]. apply orb_true_iff in H as [H | H]; lia.
  - intros H. f_equal. apply orb_true_iff. lia.
Qed.

Lemma duration_accepted (d : Z) :
  duration_out_of_range (VInt d) = inr false ↔ (1 ≤ d ≤ 300)%Z.
Proof.
  rewrite duration_out_of_range_int. split.
  - intros [= H]. apply orb_false_iff in H as [H1 H2]. lia.
  - intros H. f_equal. apply orb_false_iff. lia.
Qed.

Lemma prompt_rejected (p : string) :
  prompt_is_empty (VStr p) = inr true ↔ strip p = "".
Proof.
  rewrite prompt_is_empty_str, strip_empty. split; [by intros [=] | by intros ->].
Qed.

Lemma prompt_accepted (p : string) :
  prompt_is_empty (VStr p) = inr false ↔ strip p ≠ "".
Proof.
  rewrite prompt_is_empty_str, strip_empty. split.
  - intros [= ->]. done.
  - intros H. f_equal. by destruct (blank p).
Qed.

(** the outcome of the two checks on an [int] and a [str], as facts *)
Ltac checks :=
  repeat match goal with
    | H : duration_out_of_range (VInt _) = inr true |- _ =>
        apply duration_rejected in H
    | H : duration_out_of_range (VInt _) = inr false |- _ =>
        apply duration_accepted in H
    | H : duration_out_of_range (VInt _) = inl _ |- _ =>
        by rewrite duration_out_of_range_int in H
    | H : prompt_is_empty (VStr _) = inr true |- _ =>
        apply prompt_rejected in H
    | H : prompt_is_empty (VStr _) = inr false |- _ =>
        apply prompt_accepted in H
    | H : prompt_is_empty (VStr _) = inl _ |- _ =>
        by rewrite prompt_is_empty_str in H
    end.

Lemma read_file_inr fs (path : string) (content : list Byte.byte) :
  read_file fs path = inr content → fs !! path = Some content.
Proof. unfold read_file. by destruct (fs !! path); intros [=->]. Qed.

Ltac read_back :=
  match goal with
  | H : read_file _ _ = inr _ |- _ => apply read_file_inr in H
  end.

(** ** Base64 loses nothing *)

Lemma b64_alphabet_table :
  forallb (fun n => N.eqb (b64_index (b64_char n)) n
                    && negb (Ascii.eqb (b64_char n) "="))
          (map N.of_nat (seq 0 64)) = true.
Proof. vm_compute. reflexivity. Qed.

Lemma b64_char_spec (n : N) :
  (n < 64)%N →
  b64_index (b64_char n) = n ∧ Ascii.eqb (b64_char n) "=" = false.
Proof.
  intros Hn.
  pose proof (proj1 (forallb_forall _ _) b64_alphabet_table n) as H.
  assert (Hin : In n (map N.of_nat (seq 0 64))).
  { apply in_map_iff. exists (N.to_nat n). split; [lia|]. apply in_seq. lia. }
  apply H in Hin. apply andb_true_iff in Hin as [H1 H2].
  split; [by apply N.eqb_eq | by apply negb_true_iff].
Qed.

Lemma byte_of_to_N (b : Byte.byte) : byte_of_N (Byte.to_N b) = b.
Proof. unfold byte_of_N. by rewrite Byte.of_to_N. Qed.

Lemma to_N_lt (b : Byte.byte) : (Byte.to_N b < 256)%N.
Proof. pose proof (Byte.to_N_bounded b). lia. Qed.

Local Ltac Zify.zify_post_hook ::= Z.to_euclidean_division_equations.

(** The four sextets of a group of three octets, and back. *)
Lemma sextet0 (x : N) : (x < 256 → x / 4 < 64)%N.
Proof. lia. Qed.

Lemma sextet1 (x y : N) : (y < 256 → x mod 4 * 16 + y / 16 < 64)%N.
Proof. lia. Qed.

Lemma sextet2 (y z : N) : (z < 256 → y mod 16 * 4 + z / 64 < 64)%N.
Proof. lia. Qed.

Lemma sextet3 (z : N) : (z mod 64 < 64)%N.
Proof. lia. Qed.

Lemma octet0 (x y : N) :
  (y < 256 → x / 4 * 4 + (x mod 4 * 16 + y / 16) / 16 = x)%N.
Proof. lia. Qed.

Lemma octet1 (x y z : N) :
  (y < 256 → z < 256 →
   (x mod 4 * 16 + y / 16) mod 16 * 16 + (y mod 16 * 4 + z / 64) / 4 = y)%N.
Proof. lia. Qed.

Lemma octet2 (y z : N) :
  (z < 256 → (y mod 16 * 4 + z / 64) mod 4 * 64 + z mod 64 = z)%N.
Proof. lia. Qed.

Lemma list_ind3 {A} (P : list A → Prop) :
  P [] → (∀ a, P [a]) → (∀ a b, P [a; b]) →
  (∀ a b c l, P l → P (a :: b :: c :: l)) →
  ∀ l, P l.
Proof.
  intros H0 H1 H2 H3.
  fix IH 1.
  intros [|a [|b [|c l]]]; [apply H0 | apply H1 | apply H2 | apply H3, IH].
Qed.

Ltac sextet H :=
  let H1 := fresh in
  let H2 := fresh in
  destruct (b64_char_spec _ H) as [H1 H2]; rewrite ?H1, ?H2; clear H1 H2.

Lemma b64decode_b64encode (bs : list Byte.byte) : b64decode (b64encode bs) = bs.
Proof.
  assert (H0 : (0 < 256)%N) by done.
  induction bs as [|a|a b|a b c l IH] using list_ind3; [done|..];
    pose proof (to_N_lt a) as Ha;
    try pose proof (to_N_lt b) as Hb; try pose proof (to_N_lt c) as Hc.
  - pose proof (sextet1 (Byte.to_N a) 0 H0) as S1.
    pose proof (octet0 (Byte.to_N a) 0 H0) as O0.
    rewrite N.add_0_r in S1. rewrite N.add_0_r in O0.
    cbn [b64encode b64decode]. sextet (sextet0 _ Ha). sextet S1.
    change (Ascii.eqb "=" "=") with true. cbv iota.
    by rewrite O0, byte_of_to_N.
  - pose proof (sextet2 (Byte.to_N b) 0 H0) as S2.
    pose proof (octet1 (Byte.to_N a) (Byte.to_N b) 0 Hb H0) as O1.
    rewrite N.add_0_r in S2. rewrite N.add_0_r in O1.
    cbn [b64encode b64decode].
    sextet (sextet0 _ Ha). sextet (sextet1 (Byte.to_N a) _ Hb). sextet S2.
    change (Ascii.eqb "=" "=") with true. cbv iota.
    by rewrite (octet0 _ _ Hb), O1, !byte_of_to_N.
  - cbn [b64encode b64decode].
    sextet (sextet0 _ Ha). sextet (sextet1 (Byte.to_N a) _ Hb).
    sextet (sextet2 (Byte.to_N b) _ Hc). sextet (sextet3 (Byte.to_N c)).
    cbv iota.
    by rewrite (octet0 _ _ Hb), (octet1 (Byte.to_N a) _ _ Hb Hc),
               (octet2 (Byte.to_N b) _ Hc), !byte_of_to_N, IH.
Qed.

Lemma b64encode_inj (bs bs' : list Byte.byte) :
  b64encode bs = b64encode bs' → bs = bs'.
Proof.
  intros H. by rewrite <- (b64decode_b64encode bs), H, b64decode_b64encode.
Qed.

(** ** The shape of a result *)

Lemma handle_shape (w : world) (i : invocation) fs :
  ∃ d, (run (handle w i) fs).1 = inr d ∧
       ((∃ msg, d = {[ "error" := VStr msg ]}) ∨
        (d !! "success" = Some (VBool true) ∧ d !! "error" = None)).
Proof.
  destruct i; paths.
  all: eexists; (split; [reflexivity|]).
  all: lazymatch goal with
       | |- context [list_to_map] => right; split; reflexivity
       | |- _ => left; eexists; reflexivity
       end.
Qed.

(** C1: for every input and every outcome of the external calls, each of
    [generate_sfx], [generate_music] and [generate_music_with_melody]
    returns a dictionary, error-shaped or success-shaped; no exception
    leaves the function. *)
Theorem no_exception_crosses_the_boundary (w : world) (i : invocation) fs :
  ∃ d, (run (handle w i) fs).1 = inr d ∧ (error_shaped d ∨ success_shaped d).
Proof.
  destruct (handle_shape w i fs) as (d & Hd & [Herr | [Hok _]]);
    exists d; split; auto.
Qed.

Ltac exec_endpoint :=
  cbv beta iota zeta delta
    [run generate_music_endpoint generate_music_remote try_except invoke
     raised outcome mbind mret M_bind M_ret fst snd calls stdout files negb].

Lemma endpoint_without_prompt (w : world) (request : dict) fs :
  truthy (py_get request "prompt" VNone) = false →
  run (generate_music_endpoint w request) fs
  = (inr (list_to_map [ ("success", VBool false);
                        ("error", VStr "prompt is required") ]),
     {| calls := []; stdout := []; files := fs |}).
Proof. intros H. exec_endpoint. by rewrite H. Qed.

Lemma endpoint_remote_raises (w : world) (request : dict) fs (e : exn) :
  truthy (py_get request "prompt" VNone) = true →
  remote_error w = Some e →
  (run (generate_music_endpoint w request) fs).1
  = inr (list_to_map [ ("success", VBool false);
                       ("error", VStr (str_exn e)) ]).
Proof. intros H He. exec_endpoint. by rewrite H, He. Qed.

(** C10: a result of a core generation function is either the one-key
    dictionary [{"error": msg}], which has no ["success"] key, or carries
    ["success": True] (and no ["error"] key); the failures the HTTP
    endpoint produces itself carry ["success": False]. *)
Theorem error_shapes_of_the_two_layers :
  (∀ (w : world) (i : invocation) fs,
      ∃ d, (run (handle w i) fs).1 = inr d ∧
           ((∃ msg, d = {[ "error" := VStr msg ]} ∧ d !! "success" = None) ∨
            (d !! "success" = Some (VBool true) ∧ d !! "error" = None)))
  ∧ (∀ (w : world) (request : dict) fs,
       let out := run (generate_music_endpoint w request) fs in
       (truthy (py_get request "prompt" VNone) = false →
        ∃ d, out.1 = inr d ∧ d !! "success" = Some (VBool false)
             ∧ d !! "error" = Some (VStr "prompt is required"))
       ∧ (∀ e, truthy (py_get request "prompt" VNone) = true →
               remote_error w = Some e →
               ∃ d, out.1 = inr d ∧ d !! "success" = Some (VBool false)
                    ∧ d !! "error" = Some (VStr (str_exn e)))).
Proof.
  split.
  - intros w i fs.
    destruct (handle_shape w i fs) as (d & Hd & [[msg Hmsg] | Hok]);
      exists d; (split; [done|]); [left | by right].
    exists msg. split; [done|]. subst d. by apply lookup_singleton_ne.
  - intros w request fs out. split.
    + intros H. subst out. rewrite endpoint_without_prompt by done.
      eexists. split; [reflexivity|]. split; reflexivity.
    + intros e H He. subst out. rewrite (endpoint_remote_raises _ _ _ e) by done.
      eexists. split; [reflexivity|]. split; reflexivity.
Qed.

(** C2: when a call of the upload stage ([boto3.client] or
    [upload_file]) raises, every earlier stage having succeeded, the
    request still succeeds: the result carries ["success": True], the
    Base64 encoding of the file that was written, its name and length, the
    sampling rate, duration, format and prompt, and none of ["s3_uri"],
    ["s3_bucket"], ["s3_key"]. *)
Theorem upload_failure_is_not_fatal (w : world) (i : invocation) fs
    (c : call) (e : exn) :
  let out := run (handle w i) fs in
  upload_call c = true →
  In (c, Some e) (calls out.2) →
  ∃ d name bytes,
    out.1 = inr d
    ∧ d !! "success" = Some (VBool true)
    ∧ files out.2 !! name = Some bytes
    ∧ d !! "audio_base64" = Some (VStr (b64encode bytes))
    ∧ d !! "filename" = Some (VStr name)
    ∧ d !! "file_size_bytes" = Some (VInt (Z.of_nat (length bytes)))
    ∧ is_Some (d !! "sampling_rate")
    ∧ d !! "duration" = Some (duration_of i)
    ∧ d !! "format" = Some (VStr "wav")
    ∧ d !! "prompt_used" = Some (prompt_of i)
    ∧ d !! "s3_uri" = None ∧ d !! "s3_bucket" = None ∧ d !! "s3_key" = None
    ∧ (∀ c' o, In (c', o) (calls out.2) → upload_call c' = false → o = None).
Proof.
  destruct i; all_paths.
  all: intros Hc Hin; in_calls Hin; try discriminate Hc.
  all: read_back; do 3 eexists; (split; [reflexivity|]); (split; [reflexivity|]);
    (split; [eassumption|]); repeat (split; [reflexivity|]).
  all: (split; [by eexists|]); repeat (split; [reflexivity|]).
  all: intros c' o Hin Hc'; in_calls Hin; try discriminate Hc'; reflexivity.
Qed.

(** C5: once the model is loaded, a request with an [int] duration [d]
    and a [str] prompt [p] passes validation exactly when [1 <= d <= 300]
    and [p] is not empty after trimming; a duration below 1 or above 300
    is rejected with the duration-range message, and a prompt that is
    empty or white space only is rejected whatever the duration. *)
Theorem validation_accepts_exactly (w : world) (i : invocation) fs
    (d : Z) (p : string) :
  duration_of i = VInt d →
  prompt_of i = VStr p →
  let out := run (handle w i) fs in
  (∃ name, In (GetPretrained name, None) (calls out.2)) →
  (passed_validation out.2 ↔ (1 ≤ d ≤ 300)%Z ∧ strip p ≠ "")
  ∧ ((d < 1 ∨ 300 < d)%Z →
     out.1 = inr {[ "error" :=
                      VStr "Duration must be between 1 and 300 seconds" ]})
  ∧ ((1 ≤ d ≤ 300)%Z → strip p = "" →
     out.1 = inr {[ "error" := VStr "Prompt cannot be empty" ]})
  ∧ (blank p = true →
     ¬ passed_validation out.2 ∧ ∃ msg, out.1 = inr {[ "error" := VStr msg ]}).
Proof.
  destruct i; cbn [duration_of prompt_of]; intros -> ->.
  all: all_paths.
  all: intros [name Hin]; in_calls Hin; checks.
  all: unfold passed_validation; cbn [calls].
  all: split;
    [ split;
      [ intros (? & ? & Hin); in_calls Hin; by split
      | intros [Hd Hp]; first [ exfalso; lia | done | eexists _, _; called ] ]
    | split; [ intros Hd; first [ exfalso; lia | reflexivity ] | ];
      split; [ intros Hd Hp; first [ exfalso; lia | done | reflexivity ] | ];
      intros Hb%strip_empty; first
        [ done
        | split; [ intros (? & ? & Hin); in_calls Hin | eexists; reflexivity ] ] ].
Qed.

(** ** The model variant, the channels, the storage key, the endpoint *)

Lemma py_in_false (v : value) (l : list string) :
  (∀ s, In s l → v ≠ VStr s) → py_in v l = false.
Proof.
  intros H. destruct v as [| | |s0]; try done. simpl.
  destruct (existsb (String.eqb s0) l) eqn:He; [|done].
  apply existsb_exists in He as (x & Hx & ->%String.eqb_eq).
  by destruct (H x Hx).
Qed.

(** C6: [generate_music] with a [model_size] outside [small], [medium],
    [large], [melody] never calls [get_pretrained] and returns an error
    dictionary; with the credentials present and the imports succeeding,
    the message is the one that lists the four variants. *)
Theorem invalid_variant_rejected_before_load (w : world)
    (prompt duration model_size message_deduplication_id : value) fs :
  (∀ s, In s valid_models → model_size ≠ VStr s) →
  let out := run (generate_music w prompt duration model_size
                    message_deduplication_id) fs in
  (∀ name o, ¬ In (GetPretrained name, o) (calls out.2))
  ∧ (∃ msg, out.1 = inr {[ "error" := VStr msg ]})
  ∧ (missing_vars w = [] → import_audiocraft w = None →
     out.1 = inr {[ "error" :=
        VStr "Invalid model size. Must be one of: small, medium, large, melody" ]}).
Proof.
  intros H%py_in_false. all_paths; try congruence.
  all: split; [ intros name o Hin; by in_calls Hin | ].
  all: split; [ by eexists | ].
  all: intros Hv Hi; first [ congruence | reflexivity ].
Qed.

Lemma ndim_to_mono (a : array) : ndim (to_mono a) = 1%nat.
Proof. by destruct a. Qed.

(** C7, as the code has it: what [generate_music] and
    [generate_music_with_melody] hand to [audio_write] is the model output
    averaged over its channels when it has more than one dimension, and
    always one-dimensional; [generate_sfx] hands the model output to
    [audio_write] unchanged. *)
Theorem music_is_reduced_to_mono (w : world) (i : invocation) fs
    (stem : string) (wav : array) (rate : Z) (o : option exn) :
  let out := run (handle w i) fs in
  In (AudioWrite stem wav rate, o) (calls out.2) →
  ∃ raw, raw_output w i raw
         ∧ match i with
           | Sfx _ _ => wav = raw
           | _ => wav = to_mono raw
                  ∧ ndim wav = 1%nat
                  ∧ ∀ channels, raw = Arr2 channels →
                                wav = Arr1 (mean_axis0 channels)
           end.
Proof.
  destruct i; all_paths.
  all: intros Hin; in_calls Hin.
  all: eexists; split;
    [ do 2 eexists; repeat first [ eassumption | split | eexists ] | ].
  all: first [ reflexivity
             | split; [reflexivity|]; split;
               [ apply ndim_to_mono | by intros channels -> ] ].
Qed.

(** C4, as the code has it: the key of every upload is
    [musicgen/{token}/{filename}.wav] when a truthy deduplication token is
    given and [audio/{filename}.wav] otherwise ([generate_sfx] takes no
    token); a returned ["s3_uri"] is [s3://{bucket}/{key}] for the bucket
    and key of an upload that succeeded, which are returned beside it. *)
Theorem storage_key_and_uri (w : world) (i : invocation) fs :
  let out := run (handle w i) fs in
  (∀ file bucket key o,
      In (UploadFile file bucket key, o) (calls out.2) →
      key = storage_key i file ∧ ∃ filename, file = filename +:+ ".wav")
  ∧ (∀ d uri,
      out.1 = inr d → d !! "s3_uri" = Some uri →
      ∃ file bucket key,
        In (UploadFile file bucket key, None) (calls out.2)
        ∧ uri = VStr ("s3://" +:+ bucket +:+ "/" +:+ key)
        ∧ d !! "s3_bucket" = Some (VStr bucket)
        ∧ d !! "s3_key" = Some (VStr key)
        ∧ d !! "filename" = Some (VStr file)).
Proof.
  destruct i; all_paths.
  all: split;
    [ intros file bucket key o Hin; in_calls Hin;
      (split; [ unfold storage_key; cbn [token_of];
                try match goal with
                    | H : truthy _ = _ |- _ => rewrite H
                    end; reflexivity
              | by eexists ])
    | ].
  all: lazymatch goal with
       | H : upload_file _ _ _ _ = None |- _ =>
           intros d uri [= <-] Huri; do 3 eexists; (split; [called|]);
           (split; [ apply (inj Some); rewrite <- Huri; reflexivity | ]);
           repeat split; reflexivity
       | |- _ => intros d uri [= <-] Huri; by vm_compute in Huri
       end.
Qed.

(** C8: [generate_music_endpoint] on a request without a ["prompt"] key
    returns [{"success": False, "error": "prompt is required"}] and calls
    nothing; on a request with a truthy prompt its first call is
    [generate_music.remote] with that prompt and, for the keys that are
    absent, the defaults 30, ["large"] and [None]. *)
Theorem endpoint_requires_prompt (w : world) (request : dict) fs :
  let out := run (generate_music_endpoint w request) fs in
  (request !! "prompt" = None →
   out = (inr (list_to_map [ ("success", VBool false);
                             ("error", VStr "prompt is required") ]),
          {| calls := []; stdout := []; files := fs |}))
  ∧ (∀ p, request !! "prompt" = Some p → truthy p = true →
     ∃ rest,
       calls out.2
       = (Remote p (default (VInt 30) (request !! "duration"))
                   (default (VStr "large") (request !! "model_size"))
                   (default VNone (request !! "message_deduplication_id")),
          remote_error w) :: rest).
Proof.
  intros out. split.
  - intros H. subst out. apply endpoint_without_prompt.
    unfold py_get. by rewrite H.
  - intros p Hp Ht. revert out. all_paths.
    all: unfold py_get in *; rewrite Hp in *; try congruence.
    all: eexists; reflexivity.
Qed.

(** ** The encoded file and the order of the stages *)

(** C9: in a success result, ["file_size_bytes"] is the length of the
    file named by ["filename"] as it was written, and ["audio_base64"] is
    the Base64 encoding of those same bytes, so that any decoding of it
    has the reported length. *)
Theorem reported_size_is_the_file_length (w : world) (i : invocation) fs
    (d : dict) :
  let out := run (handle w i) fs in
  out.1 = inr d →
  d !! "success" = Some (VBool true) →
  ∃ name bytes,
    d !! "filename" = Some (VStr name)
    ∧ files out.2 !! name = Some bytes
    ∧ d !! "file_size_bytes" = Some (VInt (Z.of_nat (length bytes)))
    ∧ d !! "audio_base64" = Some (VStr (b64encode bytes))
    ∧ (∀ bs, b64encode bs = b64encode bytes → length bs = length bytes).
Proof.
  destruct i; all_paths.
  all: lazymatch goal with
       | |- context [list_to_map] => intros [= <-] _
       | |- _ => intros [= <-] Hs; by vm_compute in Hs
       end.
  all: read_back; do 2 eexists; (split; [reflexivity|]);
    (split; [eassumption|]); (split; [reflexivity|]); (split; [reflexivity|]).
  all: by intros bs ->%b64encode_inj.
Qed.

(** C3, as the code has it: a request whose duration is an [int] out of
    [1..300], or whose prompt is a [str] empty after trimming, is rejected
    with an error dictionary and without any call of the later stages
    (configure, generate, write, read, upload); the model load, however,
    has been attempted by then whenever the credentials are present, the
    imports succeed and the variant is valid. *)
Theorem invalid_request_rejected_after_load (w : world) (i : invocation) fs :
  (∃ d, duration_of i = VInt d ∧ (d < 1 ∨ 300 < d)%Z)
  ∨ (∃ p, prompt_of i = VStr p ∧ strip p = "") →
  let out := run (handle w i) fs in
  (∃ msg, out.1 = inr {[ "error" := VStr msg ]})
  ∧ (∀ c o, In (c, o) (calls out.2) → after_validation c = false)
  ∧ (missing_vars w = [] → import_audiocraft w = None → variant_valid i →
     ∃ name o, In (GetPretrained name, o) (calls out.2)).
Proof.
  intros H.
  destruct i; cbn [duration_of prompt_of variant_valid] in *; all_paths.
  all: destruct H as [(dur & -> & Hd) | (txt & -> & Hp)]; checks;
    try (exfalso; lia); try done.
  all: split; [by eexists|]; split;
    [ intros c o Hin; by in_calls Hin
    | intros Hv Hi Hm; first [ congruence | eexists _, _; called ] ].
Qed.

(** ** Examples on the stubs *)

(** an event is among the calls of a run on stubs *)
Ltac recorded := vm_compute; repeat (first [left; reflexivity | right]).

Lemma upload_failure_is_not_fatal_witness :
  let out := run (handle stub_world_no_upload (Sfx (VStr "rain") (VInt 5))) ∅ in
  ∃ d, out.1 = inr d
       ∧ d !! "success" = Some (VBool true)
       ∧ d !! "s3_uri" = None ∧ d !! "s3_bucket" = None ∧ d !! "s3_key" = None.
Proof.
  intros out.
  destruct (upload_failure_is_not_fatal stub_world_no_upload
              (Sfx (VStr "rain") (VInt 5)) ∅
              (UploadFile "generated_audio_20240101_120000.wav" "bucket"
                 "audio/generated_audio_20240101_120000.wav")
              (Exception "ClientError" "Access Denied"))
    as (d & name & bytes & Hd & Hs & _ & _ & _ & _ & _ & _ & _ & _
        & Hu & Hk & Hbk & _); [reflexivity | recorded |].
  exists d. repeat split; assumption.
Defined.

(** At duration 0 the sound-effect handler loads the model, then rejects
    the request. *)
Lemma model_loaded_before_duration_check :
  let out := run (generate_sfx stub_world (VStr "rain") (VInt 0)) ∅ in
  out.1 = inr {[ "error" := VStr "Duration must be between 1 and 300 seconds" ]}
  ∧ calls out.2 = [ (Import "audiocraft", None);
                    (GetPretrained "facebook/audiogen-medium", None) ].
Proof. split; vm_compute; reflexivity. Qed.

Lemma invalid_request_rejected_after_load_witness :
  let out := run (handle stub_world (Sfx (VStr "rain") (VInt 0))) ∅ in
  (∃ msg, out.1 = inr {[ "error" := VStr msg ]})
  ∧ (∀ c o, In (c, o) (calls out.2) → after_validation c = false)
  ∧ ∃ name o, In (GetPretrained name, o) (calls out.2).
Proof.
  intros out.
  destruct (invalid_request_rejected_after_load stub_world
              (Sfx (VStr "rain") (VInt 0)) ∅) as (H1 & H2 & H3).
  - left. exists 0%Z. split; [reflexivity | lia].
  - split; [exact H1|]. split; [exact H2|].
    apply H3; [reflexivity | reflexivity | exact I].
Defined.

(** The sound-effect handler writes the two channels it is given. *)
Lemma sfx_writes_both_channels :
  let out := run (generate_sfx stub_world (VStr "rain") (VInt 5)) ∅ in
  generate stub_model [VStr "rain"] = inr [stereo]
  ∧ ndim stereo = 2%nat
  ∧ In (AudioWrite "generated_audio_20240101_120000" stereo 32000, None)
       (calls out.2).
Proof. split; [reflexivity|]. split; [reflexivity|]. recorded. Qed.

Lemma music_is_reduced_to_mono_witness :
  let out := run (handle stub_world
                    (Music (VStr "tune") (VInt 5) (VStr "small") VNone)) ∅ in
  ∃ raw, raw_output stub_world
           (Music (VStr "tune") (VInt 5) (VStr "small") VNone) raw
         ∧ ndim (to_mono stereo) = 1%nat
         ∧ to_mono stereo = to_mono raw.
Proof.
  intros out.
  destruct (music_is_reduced_to_mono stub_world
              (Music (VStr "tune") (VInt 5) (VStr "small") VNone) ∅
              "generated_music_20240101_120000" (to_mono stereo) 32000 None)
    as (raw & Hraw & Hw & Hn & _); [recorded|].
  exists raw. repeat split; assumption.
Defined.

(** The keys with and without a token do not share a family prefix. *)
Lemma storage_prefix_depends_on_token :
  let with_token :=
    run (generate_music stub_world (VStr "tune") (VInt 5) (VStr "small")
           (VStr "abc123")) ∅ in
  let without :=
    run (generate_music stub_world (VStr "tune") (VInt 5) (VStr "small")
           VNone) ∅ in
  In (UploadFile "musicgen_abc123_20240101_120000.wav" "bucket"
        "musicgen/abc123/musicgen_abc123_20240101_120000.wav", None)
     (calls with_token.2)
  ∧ In (UploadFile "generated_music_20240101_120000.wav" "bucket"
          "audio/generated_music_20240101_120000.wav", None)
       (calls without.2)
  ∧ ¬ ∃ family_prefix,
        "musicgen/abc123/musicgen_abc123_20240101_120000.wav"
        = family_prefix +:+ "/abc123/" +:+ "musicgen_abc123_20240101_120000.wav"
        ∧ "audio/generated_music_20240101_120000.wav"
          = family_prefix +:+ "/" +:+ "generated_music_20240101_120000.wav".
Proof.
  split; [recorded|]. split; [recorded|].
  intros (pre & H1 & H2). destruct pre as [|c pre]; [discriminate|].
  cbn [String.append] in H1, H2.
  injection H1 as <- _. injection H2 as Hc _. discriminate Hc.
Qed.

Lemma storage_key_and_uri_witness :
  let i := Music (VStr "tune") (VInt 5) (VStr "small") (VStr "abc123") in
  "musicgen/abc123/musicgen_abc123_20240101_120000.wav"
  = storage_key i "musicgen_abc123_20240101_120000.wav".
Proof.
  intros i.
  apply (proj1 (storage_key_and_uri stub_world i ∅)
           "musicgen_abc123_20240101_120000.wav" "bucket"
           "musicgen/abc123/musicgen_abc123_20240101_120000.wav" None).
  recorded.
Defined.

Lemma validation_accepts_exactly_witness :
  passed_validation
    (run (handle stub_world (Sfx (VStr "rain") (VInt 5))) ∅).2.
Proof.
  apply (validation_accepts_exactly stub_world (Sfx (VStr "rain") (VInt 5)) ∅
           5 "rain" eq_refl eq_refl).
  - exists "facebook/audiogen-medium". recorded.
  - split; [lia | discriminate].
Defined.

Lemma invalid_variant_rejected_before_load_witness :
  let out := run (generate_music stub_world (VStr "tune") (VInt 5)
                    (VStr "huge") VNone) ∅ in
  (∀ name o, ¬ In (GetPretrained name, o) (calls out.2))
  ∧ out.1 = inr {[ "error" :=
       VStr "Invalid model size. Must be one of: small, medium, large, melody" ]}.
Proof.
  intros out.
  destruct (invalid_variant_rejected_before_load stub_world (VStr "tune")
              (VInt 5) (VStr "huge") VNone ∅) as (H1 & _ & H3).
  - intros s [<- | [<- | [<- | [<- | []]]]]; discriminate.
  - split; [exact H1|]. apply H3; reflexivity.
Defined.

Lemma endpoint_requires_prompt_witness :
  let request : dict := {[ "prompt" := VStr "lofi beat" ]} in
  ∃ rest,
    calls (run (generate_music_endpoint stub_world request) ∅).2
    = (Remote (VStr "lofi beat") (VInt 30) (VStr "large") VNone, None) :: rest.
Proof.
  intros request.
  exact (proj2 (endpoint_requires_prompt stub_world request ∅)
           (VStr "lofi beat") eq_refl eq_refl).
Defined.

Lemma reported_size_is_the_file_length_witness :
  let out := run (handle stub_world (Sfx (VStr "rain") (VInt 5))) ∅ in
  let d : dict :=
    list_to_map
      [ ("success", VBool true);
        ("audio_base64", VStr "UklGRg==");
        ("sampling_rate", VInt 32000);
        ("duration", VInt 5);
        ("format", VStr "wav");
        ("filename", VStr "generated_audio_20240101_120000.wav");
        ("file_size_bytes", VInt 4);
        ("s3_uri", VStr "s3://bucket/audio/generated_audio_20240101_120000.wav");
        ("s3_bucket", VStr "bucket");
        ("s3_key", VStr "audio/generated_audio_20240101_120000.wav");
        ("prompt_used", VStr "rain") ] in
  out.1 = inr d
  ∧ ∃ name bytes,
      d !! "filename" = Some (VStr name)
      ∧ files out.2 !! name = Some bytes
      ∧ d !! "file_size_bytes" = Some (VInt (Z.of_nat (length bytes)))
      ∧ d !! "audio_base64" = Some (VStr (b64encode bytes)).
Proof.
  intros out d.
  assert (Hd : out.1 = inr d) by (vm_compute; reflexivity).
  split; [exact Hd|].
  destruct (reported_size_is_the_file_length stub_world
              (Sfx (VStr "rain") (VInt 5)) ∅ d Hd eq_refl)
    as (name & bytes & Hn & Hf & Hl & Hb & _).
  exists name, bytes. repeat split; assumption.
Defined.

Lemma error_shapes_of_the_two_layers_witness :
  ∃ d, (run (generate_music_endpoint stub_world ∅) ∅).1 = inr d
       ∧ d !! "success" = Some (VBool false)
       ∧ d !! "error" = Some (VStr "prompt is required").
Proof.
  apply (proj1 (proj2 error_shapes_of_the_two_layers stub_world ∅ ∅)).
  reflexivity.
Defined.

Lemma run_calls_shape (w : world) (i : invocation) fs :
  let out := run (handle w i) fs in
  increasing (map (λ ev : event, stage ev.1) (calls out.2)) = true
  ∧ returned_but_last (calls out.2) = true.
Proof.
  destruct i; all_paths.
  all: split; reflexivity.
Qed.

Lemma read_written fs (path : string) (content bytes : list Byte.byte) :
  read_file (<[path := content]> fs) path = inr bytes → bytes = content.
Proof.
  intros H%read_file_inr. rewrite lookup_insert_eq in H. congruence.
Qed.

Ltac token :=
  unfold stem_of, storage_key, default_bucket, loaded_model, model_name;
  cbn [token_of];
  repeat match goal with
         | H : truthy _ = _ |- _ => rewrite H
         end.

Lemma upload_event (w : world) (i : invocation) fs
    (file bucket key : string) (o : option exn) :
  let out := run (handle w i) fs in
  In (UploadFile file bucket key, o) (calls out.2) →
  missing_vars w = []
  ∧ file = stem_of i (now_strftime w) +:+ ".wav"
  ∧ key = storage_key i file
  ∧ bucket = os_getenv_default w "S3_BUCKET_NAME" (default_bucket i)
  ∧ ∃ wav rate bytes,
      audio_write w (stem_of i (now_strftime w)) wav rate = inr bytes
      ∧ files out.2 !! file = Some bytes
      ∧ In (AudioWrite (stem_of i (now_strftime w)) wav rate, None) (calls out.2)
      ∧ In (OpenRb file, None) (calls out.2)
      ∧ In (Boto3Client, None) (calls out.2).
Proof.
  destruct i; all_paths.
  all: intros Hin; in_calls Hin.
  all: token.
  all: (split; [done|]); (split; [reflexivity|]); (split; [reflexivity|]);
    (split; [reflexivity|]).
  all: do 3 eexists; (split; [eassumption|]);
    (split; [apply lookup_insert_eq|]); repeat split; called.
Qed.

Lemma success_result (w : world) (i : invocation) fs (d : dict) :
  let out := run (handle w i) fs in
  let file := stem_of i (now_strftime w) +:+ ".wav" in
  out.1 = inr d →
  d !! "success" = Some (VBool true) →
  ∃ m bytes,
    missing_vars w = []
    ∧ loaded_model w i = inr m
    ∧ duration_out_of_range (duration_of i) = inr false
    ∧ prompt_is_empty (prompt_of i) = inr false
    ∧ files out.2 !! file = Some bytes
    ∧ d !! "filename" = Some (VStr file)
    ∧ d !! "audio_base64" = Some (VStr (b64encode bytes))
    ∧ d !! "file_size_bytes" = Some (VInt (Z.of_nat (length bytes)))
    ∧ d !! "sampling_rate" = Some (VInt (sample_rate m))
    ∧ d !! "duration" = Some (duration_of i)
    ∧ d !! "prompt_used" = Some (prompt_of i)
    ∧ d !! "format" = Some (VStr "wav")
    ∧ match i with
      | Sfx _ _ =>
          d !! "model_size" = None ∧ d !! "message_deduplication_id" = None
          ∧ d !! "melody_path" = None
      | Music _ _ model_size message_deduplication_id =>
          d !! "model_size" = Some model_size
          ∧ d !! "message_deduplication_id" = Some message_deduplication_id
          ∧ d !! "melody_path" = None
      | Melody _ melody_path _ message_deduplication_id =>
          d !! "model_size" = Some (VStr "melody")
          ∧ d !! "message_deduplication_id" = Some message_deduplication_id
          ∧ d !! "melody_path" = Some melody_path
      end.
Proof.
  destruct i; all_paths.
  all: lazymatch goal with
       | |- context [list_to_map] => intros [= <-] _
       | |- _ => intros [= <-] Hs; by vm_compute in Hs
       end.
  all: token; cbn [duration_of prompt_of].
  all: match goal with
       | H : read_file _ _ = inr _ |- _ => apply read_written in H; subst
       end.
  all: do 2 eexists; (split; [done|]); (split; [eassumption|]);
    (split; [eassumption|]); (split; [eassumption|]);
    (split; [apply lookup_insert_eq|]); repeat split; reflexivity.
Qed.

Lemma files_frame (w : world) (i : invocation) fs :
  let out := run (handle w i) fs in
  files out.2 = fs
  ∨ ∃ wav rate bytes,
      audio_write w (stem_of i (now_strftime w)) wav rate = inr bytes
      ∧ In (AudioWrite (stem_of i (now_strftime w)) wav rate, None) (calls out.2)
      ∧ files out.2 = <[stem_of i (now_strftime w) +:+ ".wav" := bytes]> fs.
Proof.
  destruct i; all_paths.
  all: token.
  all: lazymatch goal with
       | H : audio_write _ _ _ _ = inr _ |- _ =>
           right; do 3 eexists; (split; [eassumption|]);
           (split; [called | reflexivity])
       | |- _ => left; reflexivity
       end.
Qed.

Lemma failure_event (w : world) (i : invocation) fs (c : call) (e : exn) :
  let out := run (handle w i) fs in
  In (c, Some e) (calls out.2) →
  upload_call c = false →
  out.1 = inr {[ "error" := VStr (failure_prefix i c +:+ str_exn e) ]}.
Proof.
  destruct i; all_paths.
  all: intros Hin Hc; in_calls Hin; try discriminate Hc; reflexivity.
Qed.

Lemma load_event (w : world) (i : invocation) fs (name : string)
    (o : option exn) :
  let out := run (handle w i) fs in
  In (GetPretrained name, o) (calls out.2) →
  missing_vars w = []
  ∧ import_audiocraft w = None
  ∧ variant_valid i
  ∧ name = model_name i
  ∧ o = raised (loaded_model w i)
  ∧ (o = None →
     (∀ e, duration_out_of_range (duration_of i) = inl e →
           out.1 = inr {[ "error" := VStr (str_exn e) ]})
     ∧ (duration_out_of_range (duration_of i) = inr true →
        out.1 = inr {[ "error" :=
                         VStr "Duration must be between 1 and 300 seconds" ]})
     ∧ (∀ e, duration_out_of_range (duration_of i) = inr false →
             prompt_is_empty (prompt_of i) = inl e →
             out.1 = inr {[ "error" := VStr (str_exn e) ]})
     ∧ (duration_out_of_range (duration_of i) = inr false →
        prompt_is_empty (prompt_of i) = inr true →
        out.1 = inr {[ "error" := VStr "Prompt cannot be empty" ]})).
Proof.
  destruct i; all_paths.
  all: intros Hin; in_calls Hin.
  all: token; cbn [duration_of prompt_of variant_valid].
  all: repeat match goal with
              | H : _ = _ |- _ => rewrite H
              end.
  all: (split; [done|]); (split; [done|]); (split; [done|]);
    (split; [reflexivity|]); (split; [reflexivity|]).
  all: intros [=].
  all: split; [ intros ? [=]; subst; reflexivity | ].
  all: split; [ intros [=]; subst; reflexivity | ].
  all: split; [ intros ? [=] [=]; subst; reflexivity
              | intros [=] [=]; subst; reflexivity ].
Qed.

(** ** Lists of calls *)

Lemma increasing_sorted (l : list nat) :
  increasing l = true → StronglySorted lt l.
Proof.
  intros H. apply Sorted_StronglySorted; [intros x y z; lia|].
  induction l as [|x l IH]; [constructor|].
  destruct l as [|y l]; [repeat constructor|].
  cbn [increasing] in H. apply andb_true_iff in H as [H1 H2].
  constructor; [by apply IH | constructor; by apply Nat.ltb_lt].
Qed.

Lemma returned_but_last_split (l pre post : list event) (c : call) (e : exn) :
  returned_but_last l = true → l = (pre ++ (c, Some e) :: post)%list → post = [].
Proof.
  revert l. induction pre as [|[c' o'] pre IH]; intros l H ->.
  - destruct post as [|ev post]; [done|]. cbn [returned_but_last app] in H.
    apply andb_true_iff in H as [H _]. by apply bool_decide_eq_true in H.
  - apply (IH (pre ++ (c, Some e) :: post)%list); [|done].
    cbn [returned_but_last app] in H.
    destruct (pre ++ (c, Some e) :: post)%list eqn:E.
    + by destruct pre.
    + by apply andb_true_iff in H as [_ H].
Qed.

Lemma failed_call_is_last (l : list event) (c : call) (e : exn) :
  returned_but_last l = true → In (c, Some e) l →
  ∃ pre, l = (pre ++ [(c, Some e)])%list.
Proof.
  intros H (pre & post & ->)%in_split.
  rewrite (returned_but_last_split _ pre post c e H eq_refl). by exists pre.
Qed.

Lemma stage_before_last (pre : list event) (x y : event) :
  increasing (map (λ ev : event, stage ev.1) (pre ++ [x])%list) = true →
  In y (pre ++ [x])%list → (stage y.1 ≤ stage x.1)%nat.
Proof.
  intros H%increasing_sorted Hin. apply in_app_or in Hin as [Hin | [<- | []]]; [|done].
  rewrite map_app in H. simpl in H.
  induction pre as [|z pre IH]; [done|].
  simpl in H. apply StronglySorted_inv in H as [H1 H2].
  destruct Hin as [<- | Hin]; [|by apply IH].
  apply Nat.lt_le_incl, (proj1 (List.Forall_forall _ _) H2 (stage x.1)).
  apply in_or_app. right. by left.
Qed.

(** after a call that raised, no call of a later stage *)
Lemma nothing_after (w : world) (i : invocation) fs (c : call) (e : exn) :
  let out := run (handle w i) fs in
  In (c, Some e) (calls out.2) →
  ∀ c' o, In (c', o) (calls out.2) → (stage c' ≤ stage c)%nat.
Proof.
  intros out Hin c' o Hin'.
  destruct (run_calls_shape w i fs) as [Hinc Hret]. fold out in Hinc, Hret.
  destruct (failed_call_is_last _ _ _ Hret Hin) as [pre Hpre].
  rewrite Hpre in Hinc, Hin'.
  exact (stage_before_last pre (c, Some e) (c', o) Hinc Hin').
Qed.

(** a handler that called nothing past stage 5 wrote no file *)
Lemma no_write_no_file (w : world) (i : invocation) fs :
  let out := run (handle w i) fs in
  (∀ c o, In (c, o) (calls out.2) → (stage c ≤ 5)%nat) →
  files out.2 = fs.
Proof.
  intros out H. destruct (files_frame w i fs) as [Hf | (wav & rate & bytes & _ & Hin & _)];
    [done|].
  apply H in Hin. simpl in Hin. lia.
Qed.

(** ** The environment *)

Lemma missing_vars_nil (w : world) (var : string) :
  missing_vars w = [] → In var required_vars →
  ∃ v, environ w !! var = Some v ∧ v ≠ "".
Proof.
  unfold missing_vars. intros H Hin.
  assert (Hu : unset w var = false).
  { destruct (unset w var) eqn:Hu; [|done].
    assert (In var (List.filter (unset w) required_vars))
      by (apply filter_In; by split).
    rewrite H in *. done. }
  unfold unset, os_getenv in Hu. destruct (environ w !! var) as [v|]; [|done].
  exists v. split; [done|]. by intros ->.
Qed.

Lemma missing_vars_cons (w : world) (var : string) :
  In var required_vars →
  environ w !! var = None ∨ environ w !! var = Some "" →
  missing_vars w ≠ [].
Proof.
  intros Hin Hv Hm. destruct (missing_vars_nil w var Hm Hin) as (v & Hs & Hne).
  destruct Hv as [Hv | Hv]; rewrite Hv in Hs; by simplify_eq.
Qed.

Lemma in_missing_vars (w : world) (var : string) :
  In var (missing_vars w) ↔
  In var required_vars
  ∧ (environ w !! var = None ∨ environ w !! var = Some "").
Proof.
  unfold missing_vars. rewrite filter_In. unfold unset, os_getenv.
  split; intros [Hin H]; (split; [done|]).
  - destruct (environ w !! var) as [v|]; [|by left].
    right. by apply String.eqb_eq in H as ->.
  - by destruct H as [-> | ->].
Qed.

Lemma no_credentials (w : world) (i : invocation) fs :
  missing_vars w ≠ [] →
  run (handle w i) fs
  = (inr {[ "error" := VStr missing_credentials ]},
     {| calls := []; stdout := missing_report w; files := fs |}).
Proof.
  intros H. destruct i; exec.
  all: unfold missing_report; destruct (missing_vars w) eqn:E; [done|]; exec;
    reflexivity.
Qed.




Lemma prompt_line_str (p : string) : ∃ line, prompt_line (VStr p) = inr line.
Proof. by eexists. Qed.

(** X17: When every stage up to reading the file back returns (credentials
    present, imports, model load, a duration from 1 to 300, a prompt not
    empty after trimming, [set_generation_params], the melody read,
    generation with at least one output, [audio_write], [open]), the
    request succeeds, whatever the upload does: the result carries
    ["success": True] and the encoding of the file [audio_write] wrote. *)
Theorem success_when_the_stages_return (w : world) (i : invocation) fs (m : model)
    (d : Z) (p : string) (raw : array) (rest : list array)
    (bytes : list Byte.byte) :
  let out := run (handle w i) fs in
  let file := stem_of i (now_strftime w) +:+ ".wav" in
  let wav := match i with Sfx _ _ => raw | _ => to_mono raw end in
  missing_vars w = [] →
  import_audiocraft w = None →
  variant_valid i →
  loaded_model w i = inr m →
  duration_of i = VInt d → (1 ≤ d ≤ 300)%Z →
  prompt_of i = VStr p → strip p ≠ "" →
  set_generation_params m (VInt d) = None →
  match i with
  | Melody _ melody_path _ _ =>
      ∃ melody sr, audio_read w melody_path = inr (melody, sr)
                   ∧ generate_with_chroma m [VStr p] melody sr
                     = inr (raw :: rest)
  | _ => generate m [VStr p] = inr (raw :: rest)
  end →
  audio_write w (stem_of i (now_strftime w)) wav (sample_rate m) = inr bytes →
  open_error w file = None →
  ∃ r, out.1 = inr r
       ∧ r !! "success" = Some (VBool true)
       ∧ r !! "audio_base64" = Some (VStr (b64encode bytes))
       ∧ files out.2 !! file = Some bytes.
Proof.
  destruct i; cbn [duration_of prompt_of variant_valid]; unfold loaded_model,
    model_name, stem_of.
  all: intros Hv Hi Hm Hl -> Hd -> Hp Hc Hg Hw Ho.
  all: try destruct Hg as (melody & sr & Hr & Hg).
  all: all_paths.
  all: try congruence.
  all: checks; try (exfalso; lia); try done.
  all: simplify_eq.
  all: repeat match goal with
              | H1 : ?x = _, H2 : ?x = _ |- _ => rewrite H1 in H2; simplify_eq
              end.
  all: try match goal with
           | H : read_file _ _ = inr _ |- _ => apply read_written in H; subst
           | H : read_file _ _ = inl _ |- _ =>
               unfold read_file in H; by rewrite lookup_insert_eq in H
           end.
  all: try (destruct (prompt_line_str p); congruence).
  all: eexists; (split; [reflexivity|]); (split; [reflexivity|]);
    (split; [reflexivity|]); apply lookup_insert_eq.
Qed.

Lemma appends_ret {A} (a : A) : appends (mret a).
Proof. intros [c o f]. cbv [mret M_ret calls stdout files]. by rewrite !app_nil_r. Qed.

Lemma appends_raise {A} (e : exn) : appends (@raise A e).
Proof. intros [c o f]. cbv [raise calls stdout files]. by rewrite !app_nil_r. Qed.

Lemma appends_lift {A} (r : exn + A) : appends (lift r).
Proof. intros [c o f]. cbv [lift calls stdout files]. by rewrite !app_nil_r. Qed.

Lemma appends_invoke {A} (c : call) (r : exn + A) : appends (invoke c r).
Proof. intros [cs o f]. cbv [invoke calls stdout files]. by rewrite !app_nil_r. Qed.

Lemma appends_print (line : string) : appends (print line).
Proof. intros [cs o f]. cbv [print calls stdout files]. by rewrite !app_nil_r. Qed.

Lemma appends_write_file (path : string) (content : list Byte.byte) :
  appends (write_file path content).
Proof. intros [cs o f]. cbv [write_file calls stdout files]. by rewrite !app_nil_r. Qed.

Lemma appends_open_rb (w : world) (path : string) : appends (open_rb w path).
Proof. intros [cs o f]. cbv [open_rb invoke calls stdout files]. by rewrite !app_nil_r. Qed.

Lemma appends_bind {A B} (m : M A) (k : A → M B) :
  appends m → (∀ a, appends (k a)) → appends (m ≫= k).
Proof.
  intros Hm Hk s. cbv [mbind M_bind]. rewrite (Hm s).
  destruct (m _) as [[e|a] s1]; [done|].
  rewrite (Hk a). cbn [files].
  rewrite (Hk a s1). destruct s1 as [c1 o1 f1]. cbn [files calls stdout].
  destruct (k a _) as [r s2]. cbn [calls stdout files].
  by rewrite !app_assoc.
Qed.

Lemma appends_attempt {A} (m : M A) : appends m → appends (attempt m).
Proof.
  intros Hm s. cbv [attempt]. rewrite (Hm s). by destruct (m _) as [r s1].
Qed.

Lemma appends_try_except {A} (m : M A) (h : exn → M A) :
  appends m → (∀ e, appends (h e)) → appends (try_except m h).
Proof.
  intros Hm Hh s. cbv [try_except]. rewrite (Hm s).
  destruct (m _) as [[e|a] s1]; [|done].
  rewrite (Hh e). cbn [files].
  rewrite (Hh e s1). destruct s1 as [c1 o1 f1]. cbn [files calls stdout].
  destruct (h e _) as [r s2]. cbn [calls stdout files].
  by rewrite !app_assoc.
Qed.

Ltac appends :=
  repeat first
    [ apply appends_ret | apply appends_raise | apply appends_lift
    | apply appends_invoke | apply appends_print | apply appends_write_file
    | apply appends_open_rb | apply appends_attempt
    | apply appends_bind; [|intros ?]
    | apply appends_try_except; [|intros ?]
    | match goal with
      | |- appends (match ?x with _ => _ end) => destruct x
      end ].

Lemma appends_handle (w : world) (i : invocation) : appends (handle w i).
Proof.
  destruct i;
    unfold handle, generate_sfx, generate_music, generate_music_with_melody,
      validate_environment, imports, AudioGen_load, MusicGen_load, configure,
      run_generate, run_generate_with_chroma, run_audio_read, run_audio_write,
      s3_client, s3_upload_file, first_item.
  all: appends.
Qed.

Ltac exec_health :=
  cbv beta iota zeta delta
    [run health_check try_import validate_environment try_except attempt
     raise invoke print raised outcome mbind mret M_bind M_ret fst snd
     calls stdout files negb app].

(** what is known of an outcome, used where it is examined *)
Ltac known :=
  repeat match goal with
         | H : ?x = _, H' : context [match ?x with _ => _ end] |- _ =>
             rewrite H in H'; cbv beta iota in H'
         | H : ?x = _ |- context [match ?x with _ => _ end] =>
             rewrite H; cbv beta iota
         | H : ?x = _ |- context [if ?x then _ else _] =>
             rewrite H; cbv beta iota
         end.

Ltac health_paths := exec_health; repeat (step; exec_health).

Lemma health_report (w : world) (import_module : string -> option exn) fs :
  let out := run (health_check w import_module) fs in
  (∀ name, In name checked_modules → broken import_module name = false) →
  let missing := List.filter (not_installed import_module) checked_modules in
  out.1 = inr (list_to_map
    [ ("status", RStr (if bool_decide (missing_vars w = [])
                          && bool_decide (missing = [])
                       then "healthy" else "unhealthy"));
      ("environment_valid", RBool (bool_decide (missing_vars w = [])));
      ("imports_valid", RBool (bool_decide (missing = [])));
      ("missing_imports", RList missing);
      ("gpu_available", RBool true);
      ("modal_version", RStr "1.1.0") ])
  ∧ map fst (calls out.2) = map Import checked_modules.
Proof.
  intros out H. subst out.
  pose proof (H "torch" ltac:(simpl; auto)) as H1.
  pose proof (H "scipy" ltac:(simpl; auto)) as H2.
  pose proof (H "boto3" ltac:(simpl; auto)) as H3.
  clear H. unfold checked_modules, broken, not_installed in *.
  cbn [List.filter].
  health_paths.
  all: known.
  all: try discriminate.
  all: split; reflexivity.
Qed.

(** X22: An import that fails with anything but an [ImportError] (a shared
    library that does not load, say) is not counted as a missing module:
    the health check stops there and answers
    [{"status": "error", "error": str(e)}]; the modules after it are not
    imported. *)
Theorem health_check_stops_at_a_broken_import (w : world) (import_module : string -> option exn) fs
    (pre post : list string) (name : string) (e : exn) :
  let out := run (health_check w import_module) fs in
  checked_modules = (pre ++ name :: post)%list →
  (∀ n, In n pre → broken import_module n = false) →
  import_module name = Some e →
  is_ImportError e = false →
  out.1 = inr (list_to_map [ ("status", RStr "error");
                             ("error", RStr (str_exn e)) ])
  ∧ map fst (calls out.2) = map Import (pre ++ [name])%list.
Proof.
  intros out Hm Hpre He Hi. subst out. unfold checked_modules in Hm.
  destruct pre as [|n1 [|n2 [|n3 pre]]]; simplify_eq/=.
  - health_paths; simplify_eq; try congruence. all: split; reflexivity.
  - pose proof (Hpre "torch" ltac:(auto)) as H1. unfold broken in H1.
    health_paths; simplify_eq.
    all: known; try discriminate; try congruence.
    all: split; reflexivity.
  - pose proof (Hpre "torch" ltac:(auto)) as H1.
    pose proof (Hpre "scipy" ltac:(auto)) as H2. unfold broken in H1, H2.
    health_paths; simplify_eq.
    all: known; try discriminate; try congruence.
    all: split; reflexivity.
  - by destruct pre.
Qed.

Lemma length_b64encode (bs : list Byte.byte) :
  String.length (b64encode bs) = (4 * ((length bs + 2) / 3))%nat.
Proof.
  induction bs as [|a|a b|a b c l IH] using list_ind3; [done..|].
  cbn [b64encode String.length length]. rewrite IH.
  replace (S (S (S (length l))) + 2)%nat with ((length l + 2) + 1 * 3)%nat by lia.
  rewrite Nat.div_add by done. lia.
Qed.




Lemma try_except_returns {A} (m : M A) (h : exn → M A) (s : state) :
  (∀ e s', ∃ a s'', h e s' = (inr a, s'')) →
  ∃ a s', try_except m h s = (inr a, s').
Proof.
  intros H. unfold try_except. destruct (m s) as [[e|a] s']; [apply H|].
  by eexists _, _.
Qed.

(** a handler started after other calls: the result is that of a fresh
    run, its calls and output come after the earlier ones *)
Lemma handle_after (w : world) (i : invocation) (s : state) :
  handle w i s
  = ((run (handle w i) (files s)).1,
     {| calls := calls s ++ calls (run (handle w i) (files s)).2;
        stdout := stdout s ++ stdout (run (handle w i) (files s)).2;
        files := files (run (handle w i) (files s)).2 |}).
Proof.
  rewrite (appends_handle w i s). unfold run. by destruct (handle w i _).
Qed.

Lemma endpoint_with_prompt (w : world) (request : dict) fs :
  let prompt := py_get request "prompt" VNone in
  let duration := py_get request "duration" (VInt 30) in
  let model_size := py_get request "model_size" (VStr "large") in
  let message_deduplication_id :=
    py_get request "message_deduplication_id" VNone in
  let direct := run (generate_music w prompt duration model_size
                       message_deduplication_id) fs in
  truthy prompt = true →
  remote_error w = None →
  run (generate_music_endpoint w request) fs
  = (direct.1,
     {| calls := (Remote prompt duration model_size message_deduplication_id,
                  None) :: calls direct.2;
        stdout := stdout direct.2;
        files := files direct.2 |}).
Proof.
  intros p d ms id direct Ht He.
  destruct (handle_shape w (Music p d ms id) fs) as (r & Hr & _).
  cbn [handle] in Hr. fold direct in Hr.
  match goal with |- _ = ?x => remember x as rhs eqn:Hrhs end.
  exec_endpoint. fold p d ms id. rewrite Ht, He. cbv iota.
  pose proof (handle_after w (Music p d ms id)) as Ha. cbn [handle] in Ha.
  rewrite Ha. cbn [files calls stdout]. fold direct. rewrite Hr.
  subst rhs. by rewrite Hr.
Qed.

(** ** The environment check *)

(** X1: [validate_environment] returns [True] exactly when the three
    variables are set to non-empty strings; it then prints nothing.
    Otherwise it returns [False] after printing three lines, the first of
    which lists the variables that are unset or empty.  It calls nothing
    and touches no file. *)
Theorem validate_environment_checks (w : world) (s : state) :
  let out := validate_environment w s in
  (out.1 = inr true ∨ out.1 = inr false)
  ∧ (out.1 = inr true ↔
     ∀ var, In var required_vars → ∃ v, environ w !! var = Some v ∧ v ≠ "")
  ∧ (∀ var, In var (missing_vars w) ↔
            In var required_vars
            ∧ (environ w !! var = None ∨ environ w !! var = Some ""))
  ∧ (out.1 = inr true → stdout out.2 = stdout s)
  ∧ (out.1 = inr false → stdout out.2 = (stdout s ++ missing_report w)%list)
  ∧ calls out.2 = calls s
  ∧ files out.2 = files s.
Proof.
  intros out. subst out. unfold validate_environment, missing_report.
  destruct (missing_vars w) as [|v l] eqn:E.
  - split; [by left|]. split; [|split; [|by repeat split]].
    + split; [|done]. intros _ var Hin. by apply missing_vars_nil.
    + intros var. rewrite <- in_missing_vars. by rewrite E.
  - cbv [mbind mret M_bind M_ret print fst snd calls stdout files].
    split; [by right|]. split; [|split; [|split; [done|split; [|done]]]].
    + split; [done|]. intros H. exfalso.
      assert (Hv : In v (missing_vars w)) by (rewrite E; by left).
      apply in_missing_vars in Hv as [Hin Hv].
      destruct (H v Hin) as (x & Hx & Hne).
      destruct Hv as [Hv | Hv]; rewrite Hv in Hx; by simplify_eq.
    + intros var. rewrite <- in_missing_vars. by rewrite E.
    + intros _. by rewrite <- !app_assoc.
Qed.

(** X2: When one of the three variables is unset or empty, each handler
    returns the credentials error at once: nothing is imported, no model
    is loaded, no file is written, and the only output is the report of
    [validate_environment]. *)
Theorem missing_credentials_stop_the_request (w : world) (i : invocation) fs
    (var : string) :
  In var required_vars →
  environ w !! var = None ∨ environ w !! var = Some "" →
  run (handle w i) fs
  = (inr {[ "error" := VStr missing_credentials ]},
     {| calls := []; stdout := missing_report w; files := fs |}).
Proof.
  intros Hin Hv. apply no_credentials. by apply (missing_vars_cons w var).
Qed.

Lemma missing_credentials_stop_the_request_witness :
  (run (generate_sfx stub_world_no_env (VStr "rain") (VInt 5)) ∅).1
  = inr {[ "error" :=
             VStr "Missing AWS credentials. Please run setup_modal_secrets.py or use Modal secrets" ]}.
Proof.
  rewrite (missing_credentials_stop_the_request stub_world_no_env
             (Sfx (VStr "rain") (VInt 5)) ∅ "S3_BUCKET_NAME");
    [reflexivity | simpl; auto | left; reflexivity].
Defined.

(** ** The order of the stages *)

Lemma sorted_by_stage (l : list event) :
  increasing (map (λ ev : event, stage ev.1) l) = true →
  StronglySorted (λ a b : event, (stage a.1 < stage b.1)%nat) l.
Proof.
  intros H%increasing_sorted. induction l as [|a l IH]; [constructor|].
  simpl in H. apply StronglySorted_inv in H as [H1 H2].
  constructor; [by apply IH|].
  apply List.Forall_forall. intros b Hb.
  apply (proj1 (List.Forall_forall _ _) H2).
  by apply (in_map (λ ev : event, stage ev.1)).
Qed.

(** X4: The calls of a handler are made in the order of the stages (import,
    model load, configure, melody read, generate, write, read back, S3
    client, upload) and a stage is never entered twice: there is no
    retry and no way back. *)
Theorem stages_run_in_order (w : world) (i : invocation) fs :
  StronglySorted (λ a b : event, (stage a.1 < stage b.1)%nat)
                 (calls (run (handle w i) fs).2).
Proof. apply sorted_by_stage, run_calls_shape. Qed.

(** X5: After a call that raised, a handler calls nothing more: the upload
    is not tried after a failed [boto3.client], nothing is generated
    after a failed load, and so on. *)
Theorem nothing_is_called_after_a_failure (w : world) (i : invocation) fs
    (pre post : list event) (c : call) (e : exn) :
  calls (run (handle w i) fs).2 = (pre ++ (c, Some e) :: post)%list →
  post = [].
Proof.
  apply returned_but_last_split, run_calls_shape.
Qed.

Lemma nothing_is_called_after_a_failure_witness :
  calls (run (handle stub_world_no_upload (Sfx (VStr "rain") (VInt 5))) ∅).2
  = ([ (Import "audiocraft", None);
       (GetPretrained "facebook/audiogen-medium", None);
       (SetGenerationParams (VInt 5), None);
       (Generate [VStr "rain"], None);
       (AudioWrite "generated_audio_20240101_120000" stereo 32000, None);
       (OpenRb "generated_audio_20240101_120000.wav", None);
       (Boto3Client, None) ]
     ++ (UploadFile "generated_audio_20240101_120000.wav" "bucket"
           "audio/generated_audio_20240101_120000.wav",
         Some (Exception "ClientError" "Access Denied")) :: [])%list.
Proof.
  assert (H : ∃ post,
    calls (run (handle stub_world_no_upload (Sfx (VStr "rain") (VInt 5))) ∅).2
    = ([ (Import "audiocraft", None);
         (GetPretrained "facebook/audiogen-medium", None);
         (SetGenerationParams (VInt 5), None);
         (Generate [VStr "rain"], None);
         (AudioWrite "generated_audio_20240101_120000" stereo 32000, None);
         (OpenRb "generated_audio_20240101_120000.wav", None);
         (Boto3Client, None) ]
       ++ (UploadFile "generated_audio_20240101_120000.wav" "bucket"
             "audio/generated_audio_20240101_120000.wav",
           Some (Exception "ClientError" "Access Denied")) :: post)%list)
    by (eexists; vm_compute; reflexivity).
  destruct H as [post H].
  rewrite H. f_equal. f_equal.
  exact (nothing_is_called_after_a_failure _ _ _ _ _ _ _ H).
Defined.

(** ** The model *)



Lemma stage_after_validation (c : call) :
  (stage c ≤ 2)%nat → after_validation c = false.
Proof. destruct c; simpl; try done; lia. Qed.

Lemma stage_upload_call (c : call) :
  (stage c ≤ 7)%nat → upload_call c = false.
Proof. destruct c; simpl; try done; lia. Qed.

(** X6: When [get_pretrained] raises [e], the result is
    [{"error": "Model loading failed: " + str(e)}], whatever the duration
    and the prompt; nothing is configured, generated, written or
    uploaded. *)
Theorem model_load_failure_is_reported (w : world) (i : invocation) fs
    (name : string) (e : exn) :
  let out := run (handle w i) fs in
  In (GetPretrained name, Some e) (calls out.2) →
  out.1 = inr {[ "error" := VStr ("Model loading failed: " +:+ str_exn e) ]}
  ∧ files out.2 = fs
  ∧ ∀ c o, In (c, o) (calls out.2) → after_validation c = false.
Proof.
  intros out Hin.
  pose proof (nothing_after w i fs _ _ Hin) as Hl. fold out in Hl.
  split; [by apply (failure_event w i fs _ _ Hin)|]. split.
  - apply no_write_no_file. intros c o Hc. apply Hl in Hc. simpl in Hc. lia.
  - intros c o Hc. apply stage_after_validation. by apply Hl in Hc.
Qed.

Lemma model_load_failure_is_reported_witness :
  (run (handle stub_world_no_model
          (Melody (VStr "tune") (VStr "melody.wav") (VInt 0) VNone)) ∅).1
  = inr {[ "error" := VStr "Model loading failed: No space left on device" ]}.
Proof.
  apply (model_load_failure_is_reported stub_world_no_model
           (Melody (VStr "tune") (VStr "melody.wav") (VInt 0) VNone) ∅
           "facebook/musicgen-melody"
           (Exception "OSError" "No space left on device")).
  recorded.
Defined.

(** X7: When [model.generate] or [model.generate_with_chroma] raises [e],
    the result is [{"error": "Audio generation failed: " + str(e)}] for
    sound effects and [{"error": "Music generation failed: " + str(e)}]
    for music; no file is written and nothing is uploaded. *)
Theorem generation_failure_is_reported (w : world) (i : invocation) fs
    (c : call) (e : exn) :
  let out := run (handle w i) fs in
  (∃ descriptions, c = Generate descriptions
                   ∨ c = GenerateWithChroma descriptions) →
  In (c, Some e) (calls out.2) →
  out.1 = inr {[ "error" :=
                   VStr ((match i with
                          | Sfx _ _ => "Audio generation failed: "
                          | _ => "Music generation failed: "
                          end) +:+ str_exn e) ]}
  ∧ files out.2 = fs
  ∧ ∀ c' o, In (c', o) (calls out.2) →
            upload_call c' = false ∧ ∀ stem wav rate, c' ≠ AudioWrite stem wav rate.
Proof.
  intros out (ds & Hc) Hin.
  pose proof (nothing_after w i fs _ _ Hin) as Hl. fold out in Hl.
  assert (Hs : stage c = 5%nat) by (by destruct Hc as [-> | ->]).
  rewrite Hs in Hl.
  split; [|split].
  - unfold out.
    rewrite (failure_event w i fs _ _ Hin) by (by destruct Hc as [-> | ->]).
    by destruct Hc as [-> | ->].
  - by apply no_write_no_file.
  - intros c' o Hc'. apply Hl in Hc'. split.
    + apply stage_upload_call. lia.
    + intros stem wav rate ->. simpl in Hc'. lia.
Qed.

Lemma generation_failure_is_reported_witness :
  (run (handle stub_world_no_generation (Sfx (VStr "rain") (VInt 5))) ∅).1
  = inr {[ "error" := VStr "Audio generation failed: CUDA out of memory" ]}.
Proof.
  apply (generation_failure_is_reported stub_world_no_generation
           (Sfx (VStr "rain") (VInt 5)) ∅ (Generate [VStr "rain"])
           (Exception "RuntimeError" "CUDA out of memory")).
  - exists [VStr "rain"]. by left.
  - recorded.
Defined.

(** X8: When [audio_read] cannot read the reference melody, the result is
    [{"error": "Melody loading failed: " + str(e)}]: the model is not
    asked to generate and no file is written. *)
Theorem melody_read_failure_is_reported (w : world) (i : invocation) fs
    (path : value) (e : exn) :
  let out := run (handle w i) fs in
  In (AudioRead path, Some e) (calls out.2) →
  out.1 = inr {[ "error" := VStr ("Melody loading failed: " +:+ str_exn e) ]}
  ∧ files out.2 = fs
  ∧ ∀ descriptions o,
      ¬ In (GenerateWithChroma descriptions, o) (calls out.2)
      ∧ ¬ In (Generate descriptions, o) (calls out.2).
Proof.
  intros out Hin.
  pose proof (nothing_after w i fs _ _ Hin) as Hl. fold out in Hl.
  split; [by apply (failure_event w i fs _ _ Hin)|]. split.
  - apply no_write_no_file. intros c o Hc. apply Hl in Hc. simpl in Hc. lia.
  - intros ds o. split; intros Hc; apply Hl in Hc; simpl in Hc; lia.
Qed.

Lemma melody_read_failure_is_reported_witness :
  (run (handle stub_world_no_melody
          (Melody (VStr "tune") (VStr "melody.wav") (VInt 5) VNone)) ∅).1
  = inr {[ "error" := VStr "Melody loading failed: Failed to open the input" ]}.
Proof.
  apply (melody_read_failure_is_reported stub_world_no_melody
           (Melody (VStr "tune") (VStr "melody.wav") (VInt 5) VNone) ∅
           (VStr "melody.wav")
           (Exception "RuntimeError" "Failed to open the input")).
  recorded.
Defined.

(** X9: A failure that no inner [try] expects (of the imports, of
    [set_generation_params], of [audio_write], of reading the file
    back) reaches the outer [except]: the result is
    [{"error": str(e)}], without a prefix, and nothing is uploaded. *)
Theorem unexpected_failure_is_reported_verbatim (w : world) (i : invocation)
    fs (c : call) (e : exn) :
  let out := run (handle w i) fs in
  match c with
  | Import _ | SetGenerationParams _ | AudioWrite _ _ _ | OpenRb _ => True
  | _ => False
  end →
  In (c, Some e) (calls out.2) →
  out.1 = inr {[ "error" := VStr (str_exn e) ]}
  ∧ ∀ c' o, In (c', o) (calls out.2) → upload_call c' = false.
Proof.
  intros out Hc Hin.
  pose proof (nothing_after w i fs _ _ Hin) as Hl. fold out in Hl.
  split.
  - unfold out. rewrite (failure_event w i fs _ _ Hin) by (by destruct c).
    by destruct c.
  - intros c' o Hc'. apply Hl in Hc'. apply stage_upload_call.
    destruct c; try done; simpl in Hc'; lia.
Qed.

Lemma unexpected_failure_is_reported_verbatim_witness :
  (run (handle stub_world_no_write (Sfx (VStr "rain") (VInt 5))) ∅).1
  = inr {[ "error" := VStr "Read-only file system" ]}.
Proof.
  apply (unexpected_failure_is_reported_verbatim stub_world_no_write
           (Sfx (VStr "rain") (VInt 5)) ∅
           (AudioWrite "generated_audio_20240101_120000" stereo 32000)
           (Exception "OSError" "Read-only file system")).
  - exact I.
  - recorded.
Defined.

(** ** Files *)

(** X10: A handler writes at most one file, [filename + ".wav"], and only
    through [audio_write]: every other path of the file system holds
    after the run what it held before. *)
Theorem at_most_one_file_is_written (w : world) (i : invocation) fs
    (path : string) :
  let out := run (handle w i) fs in
  let stem := stem_of i (now_strftime w) in
  files out.2 !! path = fs !! path
  ∨ (path = stem +:+ ".wav"
     ∧ ∃ wav rate bytes,
         In (AudioWrite stem wav rate, None) (calls out.2)
         ∧ audio_write w stem wav rate = inr bytes
         ∧ files out.2 !! path = Some bytes).
Proof.
  intros out stem.
  destruct (files_frame w i fs) as [Hf | (wav & rate & bytes & Hw & Hin & Hf)];
    fold out in Hf; [left; by rewrite Hf|].
  fold out in Hin. fold stem in Hw, Hin, Hf.
  destruct (decide (path = stem +:+ ".wav")) as [-> | Hne].
  - right. split; [done|]. exists wav, rate, bytes.
    split; [done|]. split; [done|]. rewrite Hf. apply lookup_insert_eq.
  - left. rewrite Hf. by apply lookup_insert_ne.
Qed.

(** ** The upload *)

(** X11: What is uploaded is the file the handler has just written and read
    back: an [upload_file] call names [filename + ".wav"], which exists
    with the bytes [audio_write] produced, after [open] and
    [boto3.client] have returned. *)
Theorem upload_sends_the_written_file (w : world) (i : invocation) fs
    (file bucket key : string) (o : option exn) :
  let out := run (handle w i) fs in
  let stem := stem_of i (now_strftime w) in
  In (UploadFile file bucket key, o) (calls out.2) →
  file = stem +:+ ".wav"
  ∧ ∃ wav rate bytes,
      audio_write w stem wav rate = inr bytes
      ∧ files out.2 !! file = Some bytes
      ∧ In (AudioWrite stem wav rate, None) (calls out.2)
      ∧ In (OpenRb file, None) (calls out.2)
      ∧ In (Boto3Client, None) (calls out.2).
Proof.
  intros out stem Hin.
  by destruct (upload_event w i fs file bucket key o Hin) as (_ & ? & _ & _ & ?).
Qed.

Lemma upload_sends_the_written_file_witness :
  ∃ wav rate,
    files (run (handle stub_world (Sfx (VStr "rain") (VInt 5))) ∅).2
      !! "generated_audio_20240101_120000.wav" = Some riff
    ∧ audio_write stub_world "generated_audio_20240101_120000" wav rate
      = inr riff.
Proof.
  destruct (upload_sends_the_written_file stub_world
              (Sfx (VStr "rain") (VInt 5)) ∅
              "generated_audio_20240101_120000.wav" "bucket"
              "audio/generated_audio_20240101_120000.wav" None)
    as (_ & wav & rate & bytes & Hw & Hf & _); [recorded|].
  exists wav, rate. injection Hw as <-. by split.
Defined.

(** X12: The bucket of an upload is always the value of [S3_BUCKET_NAME]: the
    handler gets to the upload only if [validate_environment] found the
    variable set and non-empty, so the default given to [os.getenv]
    ([audiogen-demo], [audic-musicgen]) is never used. *)
Theorem bucket_is_the_configured_one (w : world) (i : invocation) fs
    (file bucket key : string) (o : option exn) :
  let out := run (handle w i) fs in
  In (UploadFile file bucket key, o) (calls out.2) →
  environ w !! "S3_BUCKET_NAME" = Some bucket ∧ bucket ≠ "".
Proof.
  intros out Hin.
  destruct (upload_event w i fs file bucket key o Hin) as (Hv & _ & _ & -> & _).
  destruct (missing_vars_nil w "S3_BUCKET_NAME" Hv) as (v & Hs & Hne);
    [simpl; auto|].
  unfold os_getenv_default. by rewrite Hs.
Qed.

Lemma bucket_is_the_configured_one_witness :
  environ stub_world !! "S3_BUCKET_NAME" = Some "bucket" ∧ "bucket" ≠ "".
Proof.
  apply (bucket_is_the_configured_one stub_world
           (Music (VStr "tune") (VInt 5) (VStr "small") (VStr "abc123")) ∅
           "musicgen_abc123_20240101_120000.wav" "bucket"
           "musicgen/abc123/musicgen_abc123_20240101_120000.wav" None).
  recorded.
Defined.

(** X13: The file name, the bucket and the key of an upload depend on the
    handler, the deduplication token and the timestamp only: two
    requests to one handler with the same token (or both without one)
    that are served within the same second are stored under the same
    key, whatever their prompts, durations and model sizes. *)
Theorem storage_location_ignores_the_prompt (w : world)
    (i1 i2 : invocation) fs1 fs2
    (file1 bucket1 key1 file2 bucket2 key2 : string) (o1 o2 : option exn) :
  same_target i1 i2 →
  In (UploadFile file1 bucket1 key1, o1) (calls (run (handle w i1) fs1).2) →
  In (UploadFile file2 bucket2 key2, o2) (calls (run (handle w i2) fs2).2) →
  file1 = file2 ∧ bucket1 = bucket2 ∧ key1 = key2.
Proof.
  intros Hs H1 H2.
  destruct (upload_event w i1 fs1 _ _ _ _ H1) as (_ & -> & -> & -> & _).
  destruct (upload_event w i2 fs2 _ _ _ _ H2) as (_ & -> & -> & -> & _).
  destruct i1, i2; cbn [same_target] in Hs; try done; by subst.
Qed.

Lemma storage_location_ignores_the_prompt_witness :
  "generated_music_20240101_120000.wav" = "generated_music_20240101_120000.wav"
  ∧ "bucket" = "bucket"
  ∧ "audio/generated_music_20240101_120000.wav"
    = "audio/generated_music_20240101_120000.wav".
Proof.
  apply (storage_location_ignores_the_prompt stub_world
           (Music (VStr "a calm piano") (VInt 5) (VStr "small") VNone)
           (Music (VStr "heavy drums") (VInt 60) (VStr "large") VNone)
           ∅ ∅ _ _ _ _ _ _ None None).
  - reflexivity.
  - recorded.
  - recorded.
Defined.

(** ** Success *)


Lemma stub_run :
  (run (handle stub_world (Sfx (VStr "rain") (VInt 5))) ∅).1 = inr stub_result.
Proof. vm_compute. reflexivity. Qed.


(** X15: A success result gives the request back: ["duration"] and
    ["prompt_used"] are the arguments as they were passed,
    ["sampling_rate"] is the sample rate of the model that was loaded,
    ["format"] is ["wav"]; the music handlers add ["model_size"] (always
    ["melody"] for the melody handler), ["message_deduplication_id"] and,
    for the melody handler, ["melody_path"]; the sound-effect handler has
    none of these three keys. *)
Theorem success_echoes_the_request (w : world) (i : invocation) fs (d : dict) :
  let out := run (handle w i) fs in
  out.1 = inr d →
  d !! "success" = Some (VBool true) →
  d !! "duration" = Some (duration_of i)
  ∧ d !! "prompt_used" = Some (prompt_of i)
  ∧ d !! "format" = Some (VStr "wav")
  ∧ d !! "filename" = Some (VStr (stem_of i (now_strftime w) +:+ ".wav"))
  ∧ (∃ m, loaded_model w i = inr m
          ∧ d !! "sampling_rate" = Some (VInt (sample_rate m)))
  ∧ match i with
    | Sfx _ _ =>
        d !! "model_size" = None ∧ d !! "message_deduplication_id" = None
        ∧ d !! "melody_path" = None
    | Music _ _ model_size message_deduplication_id =>
        d !! "model_size" = Some model_size
        ∧ d !! "message_deduplication_id" = Some message_deduplication_id
        ∧ d !! "melody_path" = None
    | Melody _ melody_path _ message_deduplication_id =>
        d !! "model_size" = Some (VStr "melody")
        ∧ d !! "message_deduplication_id" = Some message_deduplication_id
        ∧ d !! "melody_path" = Some melody_path
    end.
Proof.
  intros out Hd Hs.
  destruct (success_result w i fs d Hd Hs)
    as (m & bytes & _ & Hm & _ & _ & _ & Hf & _ & _ & Hsr & Hdu & Hp & Hfo & Hi).
  repeat (split; [done|]). split; [by exists m | done].
Qed.

Lemma success_echoes_the_request_witness :
  stub_result !! "duration" = Some (VInt 5)
  ∧ stub_result !! "prompt_used" = Some (VStr "rain").
Proof.
  destruct (success_echoes_the_request stub_world
              (Sfx (VStr "rain") (VInt 5)) ∅ stub_result stub_run eq_refl)
    as (H1 & H2 & _).
  by split.
Defined.

(** X16: In a success result ["audio_base64"] is padded Base64: for a file
    of [n] bytes (["file_size_bytes"]) it has [4 * ceil(n / 3)]
    characters. *)
Theorem payload_length (w : world) (i : invocation) fs (d : dict) :
  let out := run (handle w i) fs in
  out.1 = inr d →
  d !! "success" = Some (VBool true) →
  ∃ (n : nat) (payload : string),
    d !! "file_size_bytes" = Some (VInt (Z.of_nat n))
    ∧ d !! "audio_base64" = Some (VStr payload)
    ∧ String.length payload = (4 * ((n + 2) / 3))%nat.
Proof.
  intros out Hd Hs.
  destruct (success_result w i fs d Hd Hs)
    as (m & bytes & _ & _ & _ & _ & _ & _ & Hb & Hn & _).
  exists (length bytes), (b64encode bytes).
  split; [done|]. split; [done|]. apply length_b64encode.
Qed.

Lemma payload_length_witness :
  ∃ (n : nat) (payload : string),
    stub_result !! "file_size_bytes" = Some (VInt (Z.of_nat n))
    ∧ stub_result !! "audio_base64" = Some (VStr payload)
    ∧ String.length payload = (4 * ((n + 2) / 3))%nat.
Proof.
  exact (payload_length stub_world (Sfx (VStr "rain") (VInt 5)) ∅ stub_result
           stub_run eq_refl).
Defined.

Lemma success_when_the_stages_return_witness :
  ∃ r, (run (handle stub_world_no_upload
               (Melody (VStr "tune") (VStr "melody.wav") (VInt 300) VNone)) ∅).1
       = inr r
       ∧ r !! "success" = Some (VBool true).
Proof.
  destruct (success_when_the_stages_return stub_world_no_upload
              (Melody (VStr "tune") (VStr "melody.wav") (VInt 300) VNone) ∅
              stub_model 300 "tune" stereo [] riff)
    as (r & Hr & Hs & _).
  - reflexivity.
  - reflexivity.
  - exact I.
  - reflexivity.
  - reflexivity.
  - lia.
  - reflexivity.
  - by vm_compute.
  - reflexivity.
  - exists (Arr2 [[0 # 1]]%Q), 32000%Z; split; reflexivity.
  - reflexivity.
  - reflexivity.
  - exists r; split; assumption.
Defined.

(** ** Arguments of the wrong type *)

(** X18: A duration that is not a number ([None], a string such as ["30"])
    makes the comparison [duration < 1] raise; a truthy prompt that is
    not a string has no [strip].  Either [TypeError] or [AttributeError]
    reaches the outer [except] once the model is loaded, and its message
    is the result; nothing is configured or generated. *)
Theorem ill_typed_arguments_are_reported (w : world) (i : invocation) fs
    (name : string) :
  let out := run (handle w i) fs in
  In (GetPretrained name, None) (calls out.2) →
  (duration_of i = VNone ∨ (∃ s, duration_of i = VStr s) →
   out.1 = inr {[ "error" :=
     VStr ("'<' not supported between instances of '"
           +:+ type_name (duration_of i) +:+ "' and 'int'") ]})
  ∧ (∀ d n, duration_of i = VInt d → (1 ≤ d ≤ 300)%Z →
            prompt_of i = VInt n → n ≠ 0%Z →
            out.1 = inr {[ "error" :=
              VStr "'int' object has no attribute 'strip'" ]})
  ∧ (∀ d, duration_of i = VInt d → (1 ≤ d ≤ 300)%Z →
          prompt_of i = VNone ∨ prompt_of i = VInt 0
          ∨ prompt_of i = VBool false →
          out.1 = inr {[ "error" := VStr "Prompt cannot be empty" ]}).
Proof.
  intros out Hin.
  destruct (load_event w i fs name None Hin)
    as (_ & _ & _ & _ & _ & Hl).
  destruct (Hl eq_refl) as (Hd & _ & Hp & He). fold out in Hd, Hp, He.
  split; [|split].
  - intros [H | [s H]]; rewrite H; cbn [type_name];
      [ apply (Hd (TypeError _)) | apply (Hd (TypeError _)) ]; by rewrite H.
  - intros d n Hdu Hr Hpr Hn.
    apply (Hp (AttributeError "'int' object has no attribute 'strip'")).
    + rewrite Hdu. by apply duration_accepted.
    + rewrite Hpr. unfold prompt_is_empty. simpl.
      by destruct (n =? 0)%Z eqn:E; [apply Z.eqb_eq in E|].
  - intros d Hdu Hr Hpr. apply He.
    + rewrite Hdu. by apply duration_accepted.
    + by destruct Hpr as [-> | [-> | ->]].
Qed.

Lemma ill_typed_arguments_are_reported_witness :
  (run (handle stub_world (Sfx (VStr "rain") (VStr "30"))) ∅).1
  = inr {[ "error" :=
      VStr "'<' not supported between instances of 'str' and 'int'" ]}.
Proof.
  apply (proj1 (ill_typed_arguments_are_reported stub_world
                  (Sfx (VStr "rain") (VStr "30")) ∅
                  "facebook/audiogen-medium" ltac:(recorded))).
  right. by exists "30".
Defined.

(** ** The HTTP endpoint *)

(** X19: [generate_music_endpoint] never raises.  A prompt that is absent or
    falsy (the empty string, 0, [False], [None]) is answered with
    ["prompt is required"] without calling anything; a failure of the
    remote call is answered with ["success": False] and its message;
    otherwise the answer is a result of [generate_music], error-shaped or
    success-shaped. *)
Theorem endpoint_always_answers (w : world) (request : dict) fs :
  let out := run (generate_music_endpoint w request) fs in
  let prompt := py_get request "prompt" VNone in
  ∃ d, out.1 = inr d
       ∧ (truthy prompt = false →
          d = list_to_map [ ("success", VBool false);
                            ("error", VStr "prompt is required") ]
          ∧ calls out.2 = [])
       ∧ (truthy prompt = true →
          ∀ e, remote_error w = Some e →
               d = list_to_map [ ("success", VBool false);
                                 ("error", VStr (str_exn e)) ])
       ∧ (truthy prompt = true → remote_error w = None →
          error_shaped d ∨ success_shaped d).
Proof.
  intros out prompt. subst out.
  destruct (truthy prompt) eqn:Ht.
  - destruct (remote_error w) as [e|] eqn:He.
    + rewrite (endpoint_remote_raises w request fs e Ht He).
      eexists. split; [reflexivity|]. split; [done|]. split; [|done].
      by intros _ e' [= <-].
    + rewrite (endpoint_with_prompt w request fs Ht He). cbn [fst].
      destruct (handle_shape w
                  (Music prompt (py_get request "duration" (VInt 30))
                     (py_get request "model_size" (VStr "large"))
                     (py_get request "message_deduplication_id" VNone)) fs)
        as (d & Hd & Hs).
      cbn [handle] in Hd. exists d. split; [done|]. split; [done|].
      split; [done|]. intros _ _.
      destruct Hs as [Herr | [Hok _]]; [by left | by right].
  - rewrite (endpoint_without_prompt w request fs Ht).
    eexists. split; [reflexivity|]. split; [done|]. split; done.
Qed.

(** X20: With a truthy prompt and a remote call that goes through, the
    endpoint returns exactly what [generate_music] returns for the prompt
    and the (defaulted) duration, model size and deduplication id,
    error results included; its calls are the remote call followed by
    those of [generate_music], and it writes the same files. *)
Theorem endpoint_forwards_the_result (w : world) (request : dict) fs :
  let prompt := py_get request "prompt" VNone in
  let duration := py_get request "duration" (VInt 30) in
  let model_size := py_get request "model_size" (VStr "large") in
  let message_deduplication_id :=
    py_get request "message_deduplication_id" VNone in
  let out := run (generate_music_endpoint w request) fs in
  let direct := run (generate_music w prompt duration model_size
                       message_deduplication_id) fs in
  truthy prompt = true →
  remote_error w = None →
  out.1 = direct.1
  ∧ calls out.2
    = (Remote prompt duration model_size message_deduplication_id, None)
      :: calls direct.2
  ∧ stdout out.2 = stdout direct.2
  ∧ files out.2 = files direct.2.
Proof.
  intros prompt duration model_size id out direct Ht He. subst out.
  by rewrite (endpoint_with_prompt w request fs Ht He).
Qed.

Lemma endpoint_forwards_the_result_witness :
  (run (generate_music_endpoint stub_world
          {[ "prompt" := VStr "   "; "duration" := VInt 10 ]}) ∅).1
  = inr {[ "error" := VStr "Prompt cannot be empty" ]}.
Proof.
  assert (Ht : truthy (py_get {[ "prompt" := VStr "   ";
                                 "duration" := VInt 10 ]} "prompt" VNone)
               = true) by (vm_compute; reflexivity).
  rewrite (proj1 (endpoint_forwards_the_result stub_world
             {[ "prompt" := VStr "   "; "duration" := VInt 10 ]} ∅
             Ht eq_refl)).
  vm_compute. reflexivity.
Defined.

(** ** The health check *)

(** X21: When no import fails with anything but an [ImportError],
    [health_check] imports [torch], [scipy] and [boto3] in this order and
    reports: ["missing_imports"] lists, in order, the modules whose import
    raised [ImportError]; ["imports_valid"] says that there is none;
    ["environment_valid"] that the three variables are set; and
    ["status"] is ["healthy"] exactly when both hold, ["unhealthy"]
    otherwise. *)
Theorem health_check_reports (w : world) (import_module : string -> option exn)
    fs :
  let out := run (health_check w import_module) fs in
  let missing := List.filter (not_installed import_module) checked_modules in
  (∀ name, In name checked_modules → broken import_module name = false) →
  ∃ r, out.1 = inr r
       ∧ r !! "missing_imports" = Some (RList missing)
       ∧ r !! "imports_valid" = Some (RBool (bool_decide (missing = [])))
       ∧ r !! "environment_valid"
         = Some (RBool (bool_decide (missing_vars w = [])))
       ∧ (r !! "status" = Some (RStr "healthy")
          ∨ r !! "status" = Some (RStr "unhealthy"))
       ∧ (r !! "status" = Some (RStr "healthy") ↔
          missing_vars w = []
          ∧ ∀ name, In name checked_modules → import_module name = None)
       ∧ r !! "error" = None
       ∧ map fst (calls out.2) = map Import checked_modules.
Proof.
  intros out missing H.
  destruct (health_report w import_module fs H) as [Hr Hc].
  fold out missing in Hr, Hc.
  eexists. split; [exact Hr|].
  split; [reflexivity|]. split; [reflexivity|]. split; [reflexivity|].
  assert (Hm : missing = [] ↔
               ∀ name, In name checked_modules → import_module name = None).
  { split.
    - intros Hm name Hin. specialize (H name Hin). unfold broken in H.
      destruct (import_module name) as [e|] eqn:He; [|done].
      assert (In name missing); [|by rewrite Hm in *].
      apply filter_In. split; [done|]. unfold not_installed. rewrite He.
      by apply negb_false_iff.
    - intros Hn. subst missing.
      destruct (List.filter _ _) as [|x l] eqn:E; [done|].
      assert (Hx : In x (x :: l)) by (by left). rewrite <- E in Hx.
      apply filter_In in Hx as [Hin Hx]. unfold not_installed in Hx.
      by rewrite (Hn x Hin) in Hx. }
  split; [|split; [|split; [reflexivity | exact Hc]]].
  - change ((list_to_map _ : report) !! "status") with
      (Some (RStr (if bool_decide (missing_vars w = [])
                      && bool_decide (missing = [])
                   then "healthy" else "unhealthy"))).
    destruct (_ && _); auto.
  - change ((list_to_map _ : report) !! "status") with
      (Some (RStr (if bool_decide (missing_vars w = [])
                      && bool_decide (missing = [])
                   then "healthy" else "unhealthy"))).
    rewrite <- Hm. split.
    + intros Hs. destruct (bool_decide (missing_vars w = [])) eqn:E1;
        destruct (bool_decide (missing = [])) eqn:E2; try done.
      split; [ by apply bool_decide_eq_true_1 in E1
             | by apply bool_decide_eq_true_1 in E2 ].
    + intros [H1 H2]. by rewrite !bool_decide_eq_true_2.
Qed.

Lemma health_check_reports_witness :
  ∃ r, (run (health_check stub_world stub_imports) ∅).1 = inr r
       ∧ r !! "missing_imports" = Some (RList ["scipy"])
       ∧ r !! "status" = Some (RStr "unhealthy").
Proof.
  destruct (health_check_reports stub_world stub_imports ∅)
    as (r & Hr & Hm & _ & _ & [Hs | Hs] & Hi & _).
  - intros name [<- | [<- | [<- | []]]]; reflexivity.
  - exfalso. apply Hi in Hs as [_ Hs].
    by specialize (Hs "scipy" ltac:(simpl; auto)).
  - by exists r.
Defined.

Lemma health_check_stops_at_a_broken_import_witness :
  map fst (calls (run (health_check stub_world stub_imports_broken) ∅).2)
  = [Import "torch"; Import "scipy"].
Proof.
  apply (health_check_stops_at_a_broken_import stub_world stub_imports_broken ∅
           ["torch"] ["boto3"] "scipy"
           (Exception "OSError"
              "libopenblas.so.0: cannot open shared object file")).
  - reflexivity.
  - intros n [<- | []]. reflexivity.
  - reflexivity.
  - reflexivity.
Defined.

(** ** The channel average *)


